(** * Study Schedule Manager: a shallow embedding of [app.py]

    The application keeps one SQLite table [schedules] and offers four
    statements on it ([add_schedule], [get_all_schedules],
    [update_schedule], [delete_schedule]), two exports ([export_to_csv],
    [generate_pdf]) and a weekly calendar view.

    Conventions of the embedding:
    - a Python [str] is a [string], one [ascii] for each character (the
      characters below 256); a value that may be [None] is an
      [option string];
    - the database file is an explicit state [database], threaded through
      every operation; a Python call either returns or raises, which is the
      [result] type, and the state after the call is returned next to it;
    - the clock ([CURRENT_TIMESTAMP]) is an explicit argument. *)

From Stdlib Require Import ZArith List String Ascii Bool Lia.
From Stdlib Require Import Sorted Permutation DecimalString DecimalPos DecimalZ.
Import ListNotations.

Local Open Scope Z_scope.
Local Open Scope string_scope.

(** ** Python values and outcomes *)

(** [bool(s)] for a [str]: the empty string is falsy. *)
Definition truthy (s : string) : bool :=
  match s with
  | EmptyString => false
  | String _ _ => true
  end.

(** The exceptions the modelled calls can raise. *)
Inductive exn : Type :=
  | IntegrityError    (* sqlite3.IntegrityError: a constraint failed *)
  | OperationalError  (* sqlite3.OperationalError: no rowid left *)
  | OverflowError.    (* datetime: date value out of range;
                         sqlite3: integer too large for SQLite *)

Inductive result (A : Type) : Type :=
  | Return (a : A)
  | Raise (e : exn).

Arguments Return {A} a.
Arguments Raise {A} e.

Definition raised {A : Type} (r : result A) : bool :=
  match r with
  | Return _ => false
  | Raise _ => true
  end.

(** ** Storage: the [schedules] table *)

(** One row of [schedules].  The columns declared [NOT NULL] hold a
    [string]; the nullable ones an [option string].  [created_at] is never
    supplied by a statement of the program, so its [DEFAULT] always
    applies. *)
Record schedule : Type := mkSchedule {
  id : Z;
  course_name : string;
  course_code : string;
  teacher : string;
  lesson : option string;
  notes : option string;
  study_date : string;
  session : string;
  color : option string;
  created_at : string
}.

(** The database file: the rows in rowid order and the [AUTOINCREMENT]
    counter SQLite keeps in [sqlite_sequence]. *)
Record database : Type := mkDatabase {
  schedules : list schedule;
  sqlite_sequence : Z
}.

(** Largest rowid SQLite can assign (a signed 64-bit integer). *)
Definition MAX_ROWID : Z := 9223372036854775807.

(** Smallest integer SQLite can hold. *)
Definition MIN_ROWID : Z := -9223372036854775808.

(** A Python [int] can be bound to a statement only when it fits in 64
    bits; otherwise [execute] raises [OverflowError] before the statement
    runs. *)
Definition sqlite_integer (n : Z) : bool :=
  Z.leb MIN_ROWID n && Z.leb n MAX_ROWID.

Definition max_rowid (rows : list schedule) : Z :=
  fold_right (fun r m => Z.max (id r) m) 0 rows.

(** [init_db]: [CREATE TABLE IF NOT EXISTS]; [None] is a file without the
    table. *)
Definition init_db (file : option database) : database :=
  match file with
  | Some db => db
  | None => {| schedules := []; sqlite_sequence := 0 |}
  end.

(** ** Schedule repository *)

(** [add_schedule]: one [INSERT].  The rowid is one more than the largest
    rowid that ever existed; the [NOT NULL] columns reject [None]; nothing
    else is checked.  A failed statement leaves the file as it was. *)
Definition add_schedule
    (course_name course_code teacher lesson notes study_date session color
       : option string)
    (now : string) (db : database) : result unit * database :=
  let last := Z.max (sqlite_sequence db) (max_rowid (schedules db)) in
  if Z.eqb last MAX_ROWID then (Raise OperationalError, db)
  else
    match course_name, course_code, teacher, study_date, session with
    | Some cn, Some cc, Some t, Some sd, Some ss =>
        let row := {| id := last + 1;
                      course_name := cn; course_code := cc; teacher := t;
                      lesson := lesson; notes := notes;
                      study_date := sd; session := ss; color := color;
                      created_at := now |} in
        (Return tt, {| schedules := schedules db ++ [row];
                       sqlite_sequence := last + 1 |})
    | _, _, _, _, _ => (Raise IntegrityError, db)
    end.

(** [ORDER BY study_date, session]: both columns are [TEXT], compared
    character by character (SQLite's BINARY collation). *)
Definition order_by_leb (a b : schedule) : bool :=
  match String.compare (study_date a) (study_date b) with
  | Lt => true
  | Gt => false
  | Eq => String.leb (session a) (session b)
  end.

Fixpoint order_insert (r : schedule) (rows : list schedule) : list schedule :=
  match rows with
  | [] => [r]
  | x :: rest =>
      if order_by_leb r x then r :: x :: rest else x :: order_insert r rest
  end.

(** A stable sort of the table scan. *)
Definition order_by (rows : list schedule) : list schedule :=
  fold_right order_insert [] rows.

(** [get_all_schedules]: [SELECT * FROM schedules ORDER BY study_date,
    session], as a data frame (the list of its rows). *)
Definition get_all_schedules (db : database) : list schedule :=
  order_by (schedules db).

Definition matches_id (schedule_id : Z) (r : schedule) : bool :=
  Z.eqb (id r) schedule_id.

(** [update_schedule]: one [UPDATE ... WHERE id=?].  The id is bound
    first and must fit in 64 bits; the [NOT NULL] columns are checked on
    the rows the statement touches only; the function returns [None]
    whether or not a row matched. *)
Definition update_schedule
    (schedule_id : Z)
    (course_name course_code teacher lesson notes study_date session color
       : option string)
    (db : database) : result unit * database :=
  if negb (sqlite_integer schedule_id) then (Raise OverflowError, db)
  else if existsb (matches_id schedule_id) (schedules db) then
    match course_name, course_code, teacher, study_date, session with
    | Some cn, Some cc, Some t, Some sd, Some ss =>
        let set (r : schedule) :=
          if matches_id schedule_id r then
            {| id := id r;
               course_name := cn; course_code := cc; teacher := t;
               lesson := lesson; notes := notes;
               study_date := sd; session := ss; color := color;
               created_at := created_at r |}
          else r in
        (Return tt, {| schedules := map set (schedules db);
                       sqlite_sequence := sqlite_sequence db |})
    | _, _, _, _, _ => (Raise IntegrityError, db)
    end
  else (Return tt, db).

(** [delete_schedule]: one [DELETE ... WHERE id=?]; the id must fit in 64
    bits to be bound; the function returns [None] whether or not a row
    matched. *)
Definition delete_schedule (schedule_id : Z) (db : database)
    : result unit * database :=
  if negb (sqlite_integer schedule_id) then (Raise OverflowError, db)
  else
    (Return tt,
     {| schedules := filter (fun r => negb (matches_id schedule_id r))
                            (schedules db);
        sqlite_sequence := sqlite_sequence db |}).

(** [df[df['id'] == schedule_id].iloc[0]]: re-reading one row of the
    listing (tab 3). *)
Definition row_by_id (schedule_id : Z) (df : list schedule) : option schedule :=
  find (matches_id schedule_id) df.

(** ** [datetime.date]

    A date is its proleptic Gregorian ordinal (day 1 is 0001-01-01), the
    number CPython's date arithmetic works on; a valid date has an ordinal
    between 1 and [MAXORDINAL] (9999-12-31). *)
Record date : Type := fromordinal { toordinal : Z }.

Definition MAXORDINAL : Z := 3652059.

Definition valid_date (d : date) : Prop := 1 <= toordinal d <= MAXORDINAL.

Definition is_leap (year : Z) : bool :=
  Z.eqb (year mod 4) 0 && (negb (Z.eqb (year mod 100) 0) || Z.eqb (year mod 400) 0).

Definition days_before_year (year : Z) : Z :=
  let y := year - 1 in y * 365 + y / 4 - y / 100 + y / 400.

Definition DAYS_IN_MONTH : list Z := [31; 28; 31; 30; 31; 30; 31; 31; 30; 31; 30; 31].

Definition DAYS_BEFORE_MONTH : list Z :=
  [0; 31; 59; 90; 120; 151; 181; 212; 243; 273; 304; 334].

(** Both tables are indexed by month, 1 to 12. *)
Definition by_month {A : Type} (table : list A) (month : Z) (default : A) : A :=
  nth (Z.to_nat (month - 1)) table default.

Definition days_before_month (leap : bool) (month : Z) : Z :=
  by_month DAYS_BEFORE_MONTH month 0
  + (if Z.ltb 2 month && leap then 1 else 0).

Definition ymd2ord (year month day : Z) : Z :=
  days_before_year year + days_before_month (is_leap year) month + day.

(** [date(year, month, day)]. *)
Definition mkdate (year month day : Z) : date :=
  fromordinal (ymd2ord year month day).

(** [_ord2ymd]: year, month and day of an ordinal. *)
Definition ord2ymd (ordinal : Z) : Z * Z * Z :=
  let n := ordinal - 1 in
  let n400 := n / 146097 in
  let n := n mod 146097 in
  let n100 := n / 36524 in
  let n := n mod 36524 in
  let n4 := n / 1461 in
  let n := n mod 1461 in
  let n1 := n / 365 in
  let n := n mod 365 in
  let year := n400 * 400 + 1 + n100 * 100 + n4 * 4 + n1 in
  if Z.eqb n1 4 || Z.eqb n100 4 then (year - 1, 12, 31)
  else
    let leapyear := Z.eqb n1 3 && (negb (Z.eqb n4 24) || Z.eqb n100 3) in
    let month := Z.shiftr (n + 50) 5 in
    let preceding := days_before_month leapyear month in
    if Z.ltb n preceding then
      let month := month - 1 in
      let preceding :=
        preceding - (by_month DAYS_IN_MONTH month 0
                     + (if Z.eqb month 2 && leapyear then 1 else 0)) in
      (year, month, n - preceding + 1)
    else (year, month, n - preceding + 1).

Definition year (d : date) : Z := fst (fst (ord2ymd (toordinal d))).
Definition month (d : date) : Z := snd (fst (ord2ymd (toordinal d))).
Definition day (d : date) : Z := snd (ord2ymd (toordinal d)).

(** [d.weekday()]: Monday is 0, Sunday is 6. *)
Definition weekday (d : date) : Z := (toordinal d + 6) mod 7.

(** [d + timedelta(days=n)]; [d - timedelta(days=n)] is [d + timedelta(days=-n)]. *)
Definition add_days (d : date) (n : Z) : result date :=
  let o := toordinal d + n in
  if Z.ltb 0 o && Z.leb o MAXORDINAL then Return (fromordinal o)
  else Raise OverflowError.

Definition sub_days (d : date) (n : Z) : result date := add_days d (- n).

(** Decimal digits, zero padded, as [strftime] writes them ([%Y] with four
    digits, [%m] and [%d] with two). *)
Definition digit (n : Z) : string :=
  String (ascii_of_N (48 + Z.to_N (n mod 10))) EmptyString.

Definition pad2 (n : Z) : string := digit (n / 10) ++ digit n.

Definition pad4 (n : Z) : string :=
  digit (n / 1000) ++ digit (n / 100) ++ digit (n / 10) ++ digit n.

Definition MONTH_NAMES : list string :=
  ["January"; "February"; "March"; "April"; "May"; "June"; "July";
   "August"; "September"; "October"; "November"; "December"].

(** [d.strftime('%Y-%m-%d')], the stored form of [study_date]. *)
Definition strftime_Y_m_d (d : date) : string :=
  pad4 (year d) ++ "-" ++ pad2 (month d) ++ "-" ++ pad2 (day d).

(** [d.strftime('%m/%d')]. *)
Definition strftime_m_d (d : date) : string :=
  pad2 (month d) ++ "/" ++ pad2 (day d).

(** [d.strftime('%B %d')]. *)
Definition strftime_B_d (d : date) : string :=
  by_month MONTH_NAMES (month d) EmptyString ++ " " ++ pad2 (day d).

(** [d.strftime('%B %d, %Y')]. *)
Definition strftime_B_d_Y (d : date) : string :=
  strftime_B_d d ++ ", " ++ pad4 (year d).

(** ** The sidebar form *)

(** The options of the session select box, in the order the program lists
    them. *)
Definition sessions : list string := ["Morning"; "Afternoon"; "Evening"].



(** What a handler shows to the user. *)
Inductive message : Type :=
  | st_success (text : string)
  | st_error (text : string)
  | st_info (text : string).


(** ** Export service *)

(** The cell of a long text in the PDF table:
    [v[:40] + '...' if len(str(v)) > 40 else v].  For [None], [str(v)] is
    the four characters of "None", so the value is kept. *)
Definition ellipsis40 (v : option string) : option string :=
  match v with
  | Some s =>
      if Nat.ltb 40 (String.length s) then Some (substring 0 40 s ++ "...")
      else Some s
  | None => None
  end.

Definition pdf_header : list (option string) :=
  [Some "Date"; Some "Session"; Some "Course"; Some "Code"; Some "Lesson";
   Some "Teacher"; Some "Notes"].

(** One line of the table of [generate_pdf]. *)
Definition pdf_row (row : schedule) : list (option string) :=
  [Some (study_date row); Some (session row); Some (course_name row);
   Some (course_code row); ellipsis40 (lesson row); Some (teacher row);
   ellipsis40 (notes row)].

(** The document [generate_pdf] hands to the PDF library: a title and the
    table [data]; laying it out on pages is the library's work. *)
Record pdf_document : Type := mkPdf {
  pdf_title : string;
  pdf_data : list (list (option string))
}.

Definition generate_pdf (db : database) : pdf_document :=
  let df := get_all_schedules db in
  {| pdf_title := "Study Schedule";
     pdf_data := pdf_header :: map pdf_row df |}.

(** The characters of the CSV format. *)
Definition COMMA : ascii := "044"%char.
Definition QUOTE : ascii := "034"%char.
Definition LF : ascii := "010"%char.

(** The columns of [SELECT *], in the order of the table declaration. *)
Definition csv_columns : list string :=
  ["id"; "course_name"; "course_code"; "teacher"; "lesson"; "notes";
   "study_date"; "session"; "color"; "created_at"].

(** [str(n)] for an integer. *)
Definition str_of_int (n : Z) : string :=
  DecimalString.NilZero.string_of_int (Z.to_int n).

(** A missing value is written as the empty field. *)
Definition na_rep (v : option string) : string :=
  match v with
  | Some s => s
  | None => EmptyString
  end.

Definition csv_values (row : schedule) : list string :=
  [str_of_int (id row); course_name row; course_code row; teacher row;
   na_rep (lesson row); na_rep (notes row); study_date row; session row;
   na_rep (color row); created_at row].

(** With minimal quoting these are the delimiter, the quote character and
    the characters of the line terminator; a carriage return is none of
    them. *)
Definition csv_special (c : ascii) : bool :=
  Ascii.eqb c COMMA || Ascii.eqb c QUOTE || Ascii.eqb c LF.

Fixpoint csv_needs_quotes (s : string) : bool :=
  match s with
  | EmptyString => false
  | String c rest => csv_special c || csv_needs_quotes rest
  end.

(** Every quote character of a quoted field is doubled. *)
Fixpoint csv_double_quotes (s : string) : string :=
  match s with
  | EmptyString => EmptyString
  | String c rest =>
      if Ascii.eqb c QUOTE then String QUOTE (String QUOTE (csv_double_quotes rest))
      else String c (csv_double_quotes rest)
  end.

(** Minimal quoting: a field is quoted only when it holds a special
    character. *)
Definition csv_field (s : string) : string :=
  if csv_needs_quotes s
  then String QUOTE (csv_double_quotes s ++ String QUOTE EmptyString)
  else s.

Fixpoint csv_join (fields : list string) : string :=
  match fields with
  | [] => EmptyString
  | [f] => csv_field f
  | f :: rest => csv_field f ++ String COMMA (csv_join rest)
  end.

(** One record and its line terminator (the line feed of [os.linesep]). *)
Definition csv_line (fields : list string) : string :=
  csv_join fields ++ String LF EmptyString.

Fixpoint csv_lines (records : list (list string)) : string :=
  match records with
  | [] => EmptyString
  | r :: rest => csv_line r ++ csv_lines rest
  end.

(** [df.to_csv(index=False)]: the header line, then one line per row. *)
Definition to_csv (df : list schedule) : string :=
  csv_lines (csv_columns :: map csv_values df).

(** [text.encode('utf-8')]: one byte below 128, two bytes from 128 on. *)
Definition utf8_char (c : ascii) : list Byte.byte :=
  let n := N_of_ascii c in
  if N.ltb n 128 then [byte_of_ascii c]
  else [byte_of_ascii (ascii_of_N (192 + n / 64));
        byte_of_ascii (ascii_of_N (128 + n mod 64))].

Fixpoint utf8_encode (s : string) : list Byte.byte :=
  match s with
  | EmptyString => []
  | String c rest => utf8_char c ++ utf8_encode rest
  end.

Definition export_to_csv (db : database) : list Byte.byte :=
  let df := get_all_schedules db in
  utf8_encode (to_csv df).

(** *** Reading the export back

    Two readers, used to state what the escaping achieves.  Both split the
    text into records and fields by the usual rules: a field may be
    enclosed in quotes, a doubled quote inside stands for one quote, and
    outside quotes a comma ends a field.  [read_csv] takes the line feed
    the writer puts after a record as the only end of a record;
    [read_csv_standard] ends a record at a line feed, at a carriage return
    and at the two together, as CSV readers do. *)

(** The characters of the model are below 256, so a character takes one
    byte, or two with the lead byte 194 or 195. *)
Fixpoint utf8_decode (bytes : list Byte.byte) : option string :=
  match bytes with
  | [] => Some EmptyString
  | b :: rest =>
      let n := Byte.to_N b in
      if N.ltb n 128 then
        option_map (String (ascii_of_byte b)) (utf8_decode rest)
      else
        match rest with
        | [] => None
        | b2 :: rest' =>
            let m := Byte.to_N b2 in
            if N.leb 194 n && N.leb n 195 && N.leb 128 m && N.ltb m 192 then
              option_map (String (ascii_of_N ((n - 192) * 64 + (m - 128))))
                         (utf8_decode rest')
            else None
        end
  end.

Inductive reader_state : Type :=
  | record_start   (* nothing read of the record yet *)
  | field_start    (* just after a comma *)
  | in_field       (* inside an unquoted field *)
  | in_quoted      (* inside a quoted field *)
  | quote_seen.    (* a quote read inside a quoted field *)

Definition push (field : string) (c : ascii) : string :=
  field ++ String c EmptyString.

Definition finish (fields : list string) (field : string) : list string :=
  (fields ++ [field])%list.

(** [field] is the text read of the current field, [fields] the finished
    fields of the current record. *)
Fixpoint csv_reader (st : reader_state) (field : string) (fields : list string)
    (text : string) : list (list string) :=
  match text with
  | EmptyString =>
      match st with
      | record_start => []
      | _ => [finish fields field]
      end
  | String c rest =>
      match st with
      | in_quoted =>
          if Ascii.eqb c QUOTE then csv_reader quote_seen field fields rest
          else csv_reader in_quoted (push field c) fields rest
      | quote_seen =>
          if Ascii.eqb c QUOTE then csv_reader in_quoted (push field c) fields rest
          else if Ascii.eqb c COMMA then
            csv_reader field_start EmptyString (finish fields field) rest
          else if Ascii.eqb c LF then
            (finish fields field) :: csv_reader record_start EmptyString [] rest
          else csv_reader in_field (push field c) fields rest
      | in_field =>
          if Ascii.eqb c COMMA then
            csv_reader field_start EmptyString (finish fields field) rest
          else if Ascii.eqb c LF then
            (finish fields field) :: csv_reader record_start EmptyString [] rest
          else csv_reader in_field (push field c) fields rest
      | record_start | field_start =>
          if Ascii.eqb c COMMA then
            csv_reader field_start EmptyString (finish fields field) rest
          else if Ascii.eqb c LF then
            (finish fields field) :: csv_reader record_start EmptyString [] rest
          else if Ascii.eqb c QUOTE then csv_reader in_quoted field fields rest
          else csv_reader in_field (push field c) fields rest
      end
  end.

Definition read_csv (text : string) : list (list string) :=
  csv_reader record_start EmptyString [] text.







(** ** Calendar projection (tab 2) *)

Definition days : list string :=
  ["Monday"; "Tuesday"; "Wednesday"; "Thursday"; "Friday"; "Saturday"; "Sunday"].

(** [selected_date - timedelta(days=selected_date.weekday())]. *)
Definition week_start (selected_date : date) : result date :=
  sub_days selected_date (weekday selected_date).

(** A list comprehension stops at the first element that raises. *)
Fixpoint comprehension {A B : Type} (f : A -> result B) (l : list A)
    : result (list B) :=
  match l with
  | [] => Return []
  | x :: rest =>
      match f x with
      | Raise e => Raise e
      | Return y =>
          match comprehension f rest with
          | Raise e => Raise e
          | Return ys => Return (y :: ys)
          end
      end
  end.

(** [range(7)]. *)
Definition range7 : list Z := [0; 1; 2; 3; 4; 5; 6].

(** [[week_start + timedelta(days=i) for i in range(7)]]. *)
Definition week_dates (week_start : date) : result (list date) :=
  comprehension (fun i => add_days week_start i) range7.

(** [s.isspace()] for one character of [str.strip()]. *)
Definition isspace (c : ascii) : bool :=
  let n := N_of_ascii c in
  (N.leb 9 n && N.leb n 13) || (N.leb 28 n && N.leb n 32)
  || N.eqb n 133 || N.eqb n 160.

(** [bool(s.strip())]: some character of [s] is not white space. *)
Fixpoint strip_truthy (s : string) : bool :=
  match s with
  | EmptyString => false
  | String c rest => negb (isspace c) || strip_truthy rest
  end.

(** [schedule['lesson'] if schedule['lesson'] and schedule['lesson'].strip()
    else ''] *)
Definition lesson_text (row : schedule) : string :=
  match lesson row with
  | Some s => if truthy s && strip_truthy s then s else EmptyString
  | None => EmptyString
  end.

(** What one slot of the grid shows: a coloured card for an entry, or the
    grey "Free" box. *)
Inductive element : Type :=
  | card (slot : string) (entry : schedule) (lesson_line : string)
  | free (slot : string).

Definition in_slot (day_text slot : string) (row : schedule) : bool :=
  String.eqb (study_date row) day_text && String.eqb (session row) slot.

(** The body of [for session in sessions] for one day. *)
Definition slot_elements (df : list schedule) (d : date) (slot : string)
    : list element :=
  let day_schedules := filter (in_slot (strftime_Y_m_d d) slot) df in
  match day_schedules with
  | [] => [free slot]
  | _ :: _ => map (fun entry => card slot entry (lesson_text entry)) day_schedules
  end.

(** One of the seven columns: the day name, the date and the three slots
    one below the other. *)
Record day_column : Type := mkColumn {
  day_name : string;
  day_label : string;
  day_slots : list element
}.

Definition column (df : list schedule) (day_and_date : string * date)
    : day_column :=
  let (name, d) := day_and_date in
  {| day_name := name;
     day_label := strftime_m_d d;
     day_slots := flat_map (slot_elements df d) sessions |}.

Inductive calendar_view : Type :=
  | week_grid (title : string) (columns : list day_column)
  | no_schedules (notice : message).

Definition week_title (dates : list date) : string :=
  match nth_error dates 0, nth_error dates 6 with
  | Some first, Some last =>
      "**Week: " ++ strftime_B_d first ++ " - " ++ strftime_B_d_Y last ++ "**"
  | _, _ => EmptyString
  end.

(** The weekly calendar for the date picked in the date input. *)
Definition weekly_calendar (selected_date : date) (db : database)
    : result calendar_view :=
  match week_start selected_date with
  | Raise e => Raise e
  | Return monday =>
      match week_dates monday with
      | Raise e => Raise e
      | Return dates =>
          let df := get_all_schedules db in
          match df with
          | _ :: _ => Return (week_grid (week_title dates)
                                (map (column df) (combine days dates)))
          | [] => Return (no_schedules (st_info
                    "No schedules to display. Add schedules to see them in calendar view!"))
          end
      end
  end.

(** ** Inputs used in the worked examples *)

(** An insert of the listing example: only the date and the session vary. *)
Definition insert_dated (study_date session : string) (db : database)
    : database :=
  snd (add_schedule (Some "Calculus I") (Some "MATH101") (Some "Dr. Smith")
         (Some "Chapter 3: Derivatives") (Some EmptyString)
         (Some study_date) (Some session) (Some "#4CAF50")
         "2024-03-01 08:00:00" db).

(** 2024-03-10/Evening, then 2024-03-09/Morning, then 2024-03-10/Morning,
    into an empty table. *)
Definition three_inserts : database :=
  insert_dated "2024-03-10" "Morning"
    (insert_dated "2024-03-09" "Morning"
       (insert_dated "2024-03-10" "Evening" (init_db None))).

(** The row the first of the three inserts writes. *)
Definition first_row : schedule :=
  {| id := 1; course_name := "Calculus I"; course_code := "MATH101";
     teacher := "Dr. Smith"; lesson := Some "Chapter 3: Derivatives";
     notes := Some EmptyString; study_date := "2024-03-10";
     session := "Evening"; color := Some "#4CAF50";
     created_at := "2024-03-01 08:00:00" |}.

(** A text of 40 characters and one of 45 with the same first 40. *)
Definition text40 : string := "abcdefghijklmnopqrstuvwxyzABCDEFGHIJKLMN".
Definition text45 : string := "abcdefghijklmnopqrstuvwxyzABCDEFGHIJKLMNOPQRS".

(** A table of one row with a lesson of 40 and notes of 45 characters. *)
Definition long_notes_row : schedule :=
  {| id := 1; course_name := "Calculus I"; course_code := "MATH101";
     teacher := "Dr. Smith"; lesson := Some text40; notes := Some text45;
     study_date := "2024-03-10"; session := "Morning";
     color := Some "#4CAF50"; created_at := "2024-03-01 08:00:00" |}.

Definition long_notes : database :=
  snd (add_schedule (Some "Calculus I") (Some "MATH101") (Some "Dr. Smith")
         (Some text40) (Some text45) (Some "2024-03-10") (Some "Morning")
         (Some "#4CAF50") "2024-03-01 08:00:00" (init_db None)).

(** A table with the one entry 2024-03-15/Afternoon. *)
Definition friday_row : schedule :=
  {| id := 1; course_name := "Calculus I"; course_code := "MATH101";
     teacher := "Dr. Smith"; lesson := Some "Chapter 3: Derivatives";
     notes := Some EmptyString; study_date := "2024-03-15";
     session := "Afternoon"; color := Some "#4CAF50";
     created_at := "2024-03-01 08:00:00" |}.

Definition one_entry : database :=
  insert_dated "2024-03-15" "Afternoon" (init_db None).

Definition week_of_2024_03_11 : list date :=
  [mkdate 2024 3 11; mkdate 2024 3 12; mkdate 2024 3 13; mkdate 2024 3 14;
   mkdate 2024 3 15; mkdate 2024 3 16; mkdate 2024 3 17].


(** The primary key: no two rows share an [id]. *)
Definition unique_ids (db : database) : Prop :=
  NoDup (map id (schedules db)).

(** The replaceable columns of a row hold the given values. *)
Definition holds_fields (r : schedule)
    (cn cc t : string) (l n : option string) (sd ss : string)
    (c : option string) : Prop :=
  course_name r = cn /\ course_code r = cc /\ teacher r = t /\
  lesson r = l /\ notes r = n /\ study_date r = sd /\ session r = ss /\
  color r = c.

(** ** The manage tab (tab 3) *)

(** The text of one option of the select box:
    [f"{row['id']}: {row['course_name']} - {row['study_date']} ({row['session']})"]. *)
Definition schedule_label (row : schedule) : string :=
  str_of_int (id row) ++ ": " ++ course_name row ++ " - " ++ study_date row
  ++ " (" ++ session row ++ ")".

Definition schedule_options (df : list schedule) : list string :=
  map schedule_label df.

Definition COLON : ascii := "058"%char.

(** [selected.split(':')[0]]: the text before the first colon, or the whole
    text when it has none. *)
Fixpoint before_colon (selected : string) : string :=
  match selected with
  | EmptyString => EmptyString
  | String c rest =>
      if Ascii.eqb c COLON then EmptyString else String c (before_colon rest)
  end.

(** ** Sequences of repository calls *)

(** One call of the repository with its arguments. *)
Inductive statement : Type :=
  | Add (course_name course_code teacher lesson notes study_date session
           color : option string) (now : string)
  | Update (schedule_id : Z)
           (course_name course_code teacher lesson notes study_date session
              color : option string)
  | Delete (schedule_id : Z).

(** The state a call leaves, whether it returned or raised. *)
Definition execute (call : statement) (db : database) : database :=
  match call with
  | Add cn cc t l n sd ss c now => snd (add_schedule cn cc t l n sd ss c now db)
  | Update sid cn cc t l n sd ss c =>
      snd (update_schedule sid cn cc t l n sd ss c db)
  | Delete sid => snd (delete_schedule sid db)
  end.

Definition run (calls : list statement) (db : database) : database :=
  fold_left (fun state call => execute call state) calls db.

(** Every id in the table is positive and not above the counter. *)
Definition ids_bounded (db : database) : Prop :=
  forall r, In r (schedules db) -> 0 < id r <= sqlite_sequence db.

(** * Properties *)

(** ** The order of the listing *)

Lemma ascii_compare_refl (a : ascii) : Ascii.compare a a = Eq.
Proof. unfold Ascii.compare. apply N.compare_refl. Qed.

Lemma string_compare_refl (s : string) : String.compare s s = Eq.
Proof.
  induction s as [|a s IH]; simpl; [reflexivity|].
  now rewrite ascii_compare_refl.
Qed.

Lemma ascii_compare_lt_trans (a b c : ascii) :
  Ascii.compare a b = Lt -> Ascii.compare b c = Lt -> Ascii.compare a c = Lt.
Proof.
  unfold Ascii.compare. rewrite !N.compare_lt_iff. apply N.lt_trans.
Qed.

Lemma string_compare_lt_trans (s1 : string) :
  forall s2 s3,
    String.compare s1 s2 = Lt -> String.compare s2 s3 = Lt ->
    String.compare s1 s3 = Lt.
Proof.
  induction s1 as [|a s1 IH]; intros [|b s2] [|c s3]; simpl;
    try discriminate; try reflexivity.
  destruct (Ascii.compare a b) eqn:Hab; try discriminate;
    destruct (Ascii.compare b c) eqn:Hbc; try discriminate; intros H1 H2.
  - apply Ascii.compare_eq_iff in Hab, Hbc. subst.
    rewrite ascii_compare_refl. eauto.
  - apply Ascii.compare_eq_iff in Hab. subst. now rewrite Hbc.
  - apply Ascii.compare_eq_iff in Hbc. subst. now rewrite Hab.
  - now rewrite (ascii_compare_lt_trans _ _ _ Hab Hbc).
Qed.

Lemma string_leb_trans (s1 s2 s3 : string) :
  String.leb s1 s2 = true -> String.leb s2 s3 = true -> String.leb s1 s3 = true.
Proof.
  unfold String.leb.
  destruct (String.compare s1 s2) eqn:H12; try discriminate;
    destruct (String.compare s2 s3) eqn:H23; try discriminate; intros _ _.
  - apply String.compare_eq_iff in H12, H23. subst.
    now rewrite string_compare_refl.
  - apply String.compare_eq_iff in H12. subst. now rewrite H23.
  - apply String.compare_eq_iff in H23. subst. now rewrite H12.
  - now rewrite (string_compare_lt_trans _ _ _ H12 H23).
Qed.

Lemma order_by_leb_total (a b : schedule) :
  order_by_leb a b = true \/ order_by_leb b a = true.
Proof.
  unfold order_by_leb.
  rewrite (String.compare_antisym (study_date b) (study_date a)).
  destruct (String.compare (study_date a) (study_date b)); simpl; auto.
  apply String.leb_total.
Qed.

Lemma order_by_leb_trans (a b c : schedule) :
  order_by_leb a b = true -> order_by_leb b c = true -> order_by_leb a c = true.
Proof.
  unfold order_by_leb.
  destruct (String.compare (study_date a) (study_date b)) eqn:Hab;
    try discriminate;
    destruct (String.compare (study_date b) (study_date c)) eqn:Hbc;
    try discriminate; intros H1 H2.
  - apply String.compare_eq_iff in Hab, Hbc. rewrite Hab, Hbc.
    rewrite string_compare_refl. eauto using string_leb_trans.
  - apply String.compare_eq_iff in Hab. rewrite Hab, Hbc. reflexivity.
  - apply String.compare_eq_iff in Hbc. rewrite <- Hbc, Hab. reflexivity.
  - now rewrite (string_compare_lt_trans _ _ _ Hab Hbc).
Qed.

Lemma order_insert_perm (r : schedule) (rows : list schedule) :
  Permutation (r :: rows) (order_insert r rows).
Proof.
  induction rows as [|x rest IH]; simpl; [reflexivity|].
  destruct (order_by_leb r x); [reflexivity|].
  rewrite perm_swap. now constructor.
Qed.

Lemma order_by_perm (rows : list schedule) : Permutation rows (order_by rows).
Proof.
  induction rows as [|r rows IH]; simpl; [constructor|].
  rewrite <- order_insert_perm. now constructor.
Qed.

Lemma order_insert_sorted (r : schedule) (rows : list schedule) :
  StronglySorted (fun a b => order_by_leb a b = true) rows ->
  StronglySorted (fun a b => order_by_leb a b = true) (order_insert r rows).
Proof.
  induction 1 as [|x rest Hs IH Hx]; simpl.
  - constructor; constructor.
  - destruct (order_by_leb r x) eqn:Hrx.
    + constructor; [now constructor|].
      constructor; [assumption|].
      eapply Forall_impl; [|exact Hx].
      intros y Hy. eauto using order_by_leb_trans.
    + constructor; [assumption|].
      rewrite <- order_insert_perm. constructor; [|assumption].
      destruct (order_by_leb_total r x) as [H|H]; congruence.
Qed.

(** What the listing does guarantee: it holds every row once and is sorted
    by date and then by the text of the session. *)
Lemma get_all_schedules_sorted (db : database) :
  StronglySorted (fun a b => order_by_leb a b = true) (get_all_schedules db).
Proof.
  unfold get_all_schedules, order_by.
  induction (schedules db) as [|r rows IH]; simpl.
  - constructor.
  - now apply order_insert_sorted.
Qed.

Lemma get_all_schedules_perm (db : database) :
  Permutation (schedules db) (get_all_schedules db).
Proof. apply order_by_perm. Qed.

Lemma get_all_schedules_length (db : database) :
  List.length (get_all_schedules db) = List.length (schedules db).
Proof. symmetry. apply Permutation_length, get_all_schedules_perm. Qed.

(** C1 (the code departs from the claim): after the inserts
    2024-03-10/Evening, 2024-03-09/Morning, 2024-03-10/Morning the listing
    is 2024-03-09/Morning, 2024-03-10/Evening, 2024-03-10/Morning: within a
    date the sessions come in the order of their text (Afternoon, Evening,
    Morning), not in the order Morning, Afternoon, Evening of the select
    box and the calendar. *)
Theorem listing_orders_sessions_as_text :
  let listed :=
    map (fun r => (study_date r, session r)) (get_all_schedules three_inserts) in
  listed = [("2024-03-09", "Morning"); ("2024-03-10", "Evening");
            ("2024-03-10", "Morning")]
  /\ listed <> [("2024-03-09", "Morning"); ("2024-03-10", "Morning");
                ("2024-03-10", "Evening")].
Proof. split; [reflexivity | discriminate]. Qed.

(** ** The primary key is kept by every statement *)

Lemma max_rowid_bound (rows : list schedule) (r : schedule) :
  In r rows -> id r <= max_rowid rows.
Proof.
  induction rows as [|x rows IH]; simpl; [contradiction|].
  intros [->|H]; [lia|]. specialize (IH H). lia.
Qed.

Lemma unique_ids_init : unique_ids (init_db None).
Proof. constructor. Qed.

Lemma add_schedule_unique_ids cn cc t l n sd ss c now (db : database) :
  unique_ids db -> unique_ids (snd (add_schedule cn cc t l n sd ss c now db)).
Proof.
  unfold add_schedule, unique_ids. intros Hu.
  destruct (Z.eqb _ MAX_ROWID); [exact Hu|].
  destruct cn, cc, t, sd, ss; try exact Hu. simpl.
  rewrite map_app. simpl.
  eapply Permutation_NoDup; [apply Permutation_cons_append|].
  constructor; [|exact Hu].
  rewrite in_map_iff. intros (r & Hid & Hin).
  apply max_rowid_bound in Hin. lia.
Qed.

Lemma update_schedule_ids sid cn cc t l n sd ss c (db : database) :
  map id (schedules (snd (update_schedule sid cn cc t l n sd ss c db)))
  = map id (schedules db).
Proof.
  unfold update_schedule.
  destruct (negb (sqlite_integer sid)); [reflexivity|].
  destruct (existsb _ _); [|reflexivity].
  destruct cn, cc, t, sd, ss; try reflexivity. simpl.
  rewrite map_map. apply map_ext. intros r.
  now destruct (matches_id sid r).
Qed.

Lemma update_schedule_unique_ids sid cn cc t l n sd ss c (db : database) :
  unique_ids db -> unique_ids (snd (update_schedule sid cn cc t l n sd ss c db)).
Proof. unfold unique_ids. now rewrite update_schedule_ids. Qed.

Lemma delete_schedule_unique_ids sid (db : database) :
  unique_ids db -> unique_ids (snd (delete_schedule sid db)).
Proof.
  unfold unique_ids, delete_schedule.
  destruct (negb (sqlite_integer sid)); [trivial|]. simpl.
  induction (schedules db) as [|r rows IH]; simpl; [trivial|].
  intros Hu. inversion Hu as [|? ? Hnotin Hrest]; subst.
  destruct (matches_id sid r); simpl; [now apply IH|].
  constructor; [|now apply IH].
  rewrite in_map_iff in *. intros (x & Hx & Hin).
  apply filter_In in Hin. apply Hnotin. exists x. tauto.
Qed.

(** ** Update by id *)

Lemma row_by_id_listing (sid : Z) (db : database) (P : schedule -> Prop) :
  existsb (matches_id sid) (schedules db) = true ->
  (forall r, In r (schedules db) -> matches_id sid r = true -> P r) ->
  exists r, row_by_id sid (get_all_schedules db) = Some r /\ id r = sid /\ P r.
Proof.
  intros Hex HP. unfold row_by_id.
  apply existsb_exists in Hex. destruct Hex as (r0 & Hin0 & Hm0).
  destruct (find (matches_id sid) (get_all_schedules db)) as [r|] eqn:Hf.
  - apply find_some in Hf. destruct Hf as [Hin Hm].
    exists r. split; [reflexivity|]. split.
    + now apply Z.eqb_eq in Hm.
    + apply HP; [|exact Hm].
      eapply Permutation_in; [symmetry; apply get_all_schedules_perm|exact Hin].
  - exfalso.
    assert (Hin : In r0 (get_all_schedules db))
      by (eapply Permutation_in; [apply get_all_schedules_perm|exact Hin0]).
    pose proof (find_none _ _ Hf _ Hin). congruence.
Qed.

Lemma sqlite_integer_spec (n : Z) :
  sqlite_integer n = true <-> MIN_ROWID <= n <= MAX_ROWID.
Proof.
  unfold sqlite_integer. rewrite andb_true_iff, !Z.leb_le. tauto.
Qed.

Lemma sqlite_integer_in_range (n : Z) :
  MIN_ROWID <= n <= MAX_ROWID -> negb (sqlite_integer n) = false.
Proof. intros H. apply sqlite_integer_spec in H. now rewrite H. Qed.

Lemma sqlite_integer_out_of_range (n : Z) :
  ~ (MIN_ROWID <= n <= MAX_ROWID) -> negb (sqlite_integer n) = true.
Proof.
  intros H. destruct (sqlite_integer n) eqn:E; [|reflexivity].
  apply sqlite_integer_spec in E. contradiction.
Qed.

(** C2 (as amended): updating an id that SQLite can hold (a 64-bit
    integer) and that is not in the table returns normally, with the
    result of a successful update and no not-found signal, and leaves the
    store as it was; updating such an id that is in the table, with values
    the [NOT NULL] columns accept, returns normally and re-reading the id
    from the listing gives a row with that id and exactly the given
    fields; an id outside the 64-bit range, which no row has, cannot be
    bound: the call raises [OverflowError] and leaves the store as it
    was. *)
Theorem update_schedule_by_id (db : database) (sid : Z) :
  (MIN_ROWID <= sid <= MAX_ROWID ->
   existsb (matches_id sid) (schedules db) = false ->
   forall cn cc t l n sd ss c,
     update_schedule sid cn cc t l n sd ss c db = (Return tt, db))
  /\
  (MIN_ROWID <= sid <= MAX_ROWID ->
   existsb (matches_id sid) (schedules db) = true ->
   forall (cn cc t : string) (l n : option string) (sd ss : string)
          (c : option string),
     let out := update_schedule sid (Some cn) (Some cc) (Some t) l n
                  (Some sd) (Some ss) c db in
     fst out = Return tt /\
     exists r, row_by_id sid (get_all_schedules (snd out)) = Some r /\
               id r = sid /\ holds_fields r cn cc t l n sd ss c)
  /\
  (~ (MIN_ROWID <= sid <= MAX_ROWID) ->
   forall cn cc t l n sd ss c,
     update_schedule sid cn cc t l n sd ss c db = (Raise OverflowError, db)).
Proof.
  split; [|split].
  - intros Hr Hex **. unfold update_schedule.
    now rewrite (sqlite_integer_in_range sid Hr), Hex.
  - intros Hr Hex **. subst out. unfold update_schedule.
    rewrite (sqlite_integer_in_range sid Hr), Hex. simpl.
    split; [reflexivity|].
    apply row_by_id_listing; simpl.
    + apply existsb_exists in Hex. destruct Hex as (r0 & Hin0 & Hm0).
      apply existsb_exists.
      eexists. split; [apply in_map; exact Hin0|].
      rewrite Hm0. exact Hm0.
    + intros r Hin Hm. apply in_map_iff in Hin.
      destruct Hin as (r' & <- & _).
      destruct (matches_id sid r') eqn:Hm'.
      * unfold holds_fields. simpl. tauto.
      * congruence.
  - intros Hr **. unfold update_schedule.
    now rewrite (sqlite_integer_out_of_range sid Hr).
Qed.

(** Witness for C2: id 7 is not in the three-row table, id 2 is, and
    2^63 is no 64-bit integer. *)
Lemma update_schedule_by_id_witness :
  update_schedule 7 None None None None None None None None three_inserts
    = (Return tt, three_inserts)
  /\ (exists r,
       row_by_id 2 (get_all_schedules (snd (update_schedule 2
         (Some "Physics") (Some "PHY1") (Some "Dr. Lee") None
         (Some "bring notes") (Some "2024-03-12") (Some "Evening")
         (Some "#000000") three_inserts))) = Some r /\
       id r = 2 /\
       holds_fields r "Physics" "PHY1" "Dr. Lee" None (Some "bring notes")
         "2024-03-12" "Evening" (Some "#000000"))
  /\ update_schedule 9223372036854775808 None None None None None None None
       None three_inserts = (Raise OverflowError, three_inserts).
Proof.
  split; [|split].
  - apply (proj1 (update_schedule_by_id three_inserts 7));
      [unfold MIN_ROWID, MAX_ROWID; lia | reflexivity].
  - apply (proj1 (proj2 (update_schedule_by_id three_inserts 2)));
      [unfold MIN_ROWID, MAX_ROWID; lia | reflexivity].
  - apply (proj2 (proj2 (update_schedule_by_id three_inserts
                           9223372036854775808))).
    unfold MIN_ROWID, MAX_ROWID. lia.
Defined.

(** C2 (the claim as stated fails): in the empty table id 7 does not
    exist, yet the update returns [None] like a successful one; nothing is
    raised and no not-found value is returned. *)
Lemma update_missing_id_no_signal :
  existsb (matches_id 7) (schedules (init_db None)) = false
  /\ fst (update_schedule 7 (Some "Physics") (Some "PHY1") (Some "Dr. Lee")
            None None (Some "2024-03-12") (Some "Evening") None
            (init_db None)) = Return tt
  /\ fst (update_schedule 2 (Some "Physics") (Some "PHY1") (Some "Dr. Lee")
            None None (Some "2024-03-12") (Some "Evening") None
            three_inserts) = Return tt.
Proof. repeat split; reflexivity. Qed.

(** C5: an update (of an id in the table or not) never changes the [id] or
    the [created_at] of a row, and a row whose id differs from the one given
    is left exactly as it was, position by position in the table. *)
Theorem update_schedule_frame (db : database) (sid : Z)
    (cn cc t l n sd ss c : option string) (i : nat) (r : schedule) :
  nth_error (schedules db) i = Some r ->
  exists r',
    nth_error (schedules (snd (update_schedule sid cn cc t l n sd ss c db))) i
      = Some r'
    /\ id r' = id r /\ created_at r' = created_at r
    /\ (id r <> sid -> r' = r).
Proof.
  intros Hnth. unfold update_schedule.
  destruct (negb (sqlite_integer sid)); [exists r; simpl; tauto|].
  destruct (existsb _ _); [|exists r; simpl; tauto].
  destruct cn, cc, t, sd, ss; try (exists r; simpl; tauto).
  simpl. rewrite nth_error_map, Hnth. simpl.
  destruct (matches_id sid r) eqn:Hm.
  - eexists. split; [reflexivity|]. simpl. repeat split.
    intros Hne. apply Z.eqb_eq in Hm. contradiction.
  - exists r. tauto.
Qed.

(** Witness for C5: row 1 of the three-row table when
    id 2 is updated. *)
Lemma update_schedule_frame_witness :
  nth_error (schedules three_inserts) 0 = Some first_row
  /\ exists r',
       nth_error (schedules (snd (update_schedule 2 (Some "Physics")
         (Some "PHY1") (Some "Dr. Lee") None None (Some "2024-03-12")
         (Some "Evening") None three_inserts))) 0 = Some r'
       /\ id r' = id first_row /\ created_at r' = created_at first_row
       /\ (id first_row <> 2 -> r' = first_row).
Proof.
  split; [reflexivity|].
  apply (update_schedule_frame three_inserts 2). reflexivity.
Defined.

(** ** Delete by id *)

Lemma filter_unique_id (sid : Z) (rows : list schedule) :
  NoDup (map id rows) ->
  existsb (matches_id sid) rows = true ->
  exists r before after,
    rows = (before ++ r :: after)%list /\ id r = sid /\
    filter (fun r => negb (matches_id sid r)) rows = (before ++ after)%list.
Proof.
  induction rows as [|x rows IH]; simpl; [discriminate|].
  intros Hu Hex. inversion Hu as [|? ? Hnotin Hrest]; subst.
  destruct (matches_id sid x) eqn:Hx; simpl.
  - exists x, [], rows. simpl. split; [reflexivity|].
    apply Z.eqb_eq in Hx. split; [exact Hx|].
    apply forallb_filter_id. apply forallb_forall. intros y Hy.
    unfold matches_id. destruct (Z.eqb (id y) sid) eqn:Hy'; [|reflexivity].
    exfalso. apply Hnotin. apply Z.eqb_eq in Hy'.
    rewrite Hx, <- Hy'. now apply in_map.
  - destruct (IH Hrest Hex) as (r & before & after & -> & Hid & Hf).
    exists r, (x :: before), after. simpl. now rewrite Hf.
Qed.

Lemma delete_schedule_absent (sid : Z) (db : database) :
  MIN_ROWID <= sid <= MAX_ROWID ->
  existsb (matches_id sid) (schedules db) = false ->
  delete_schedule sid db = (Return tt, db).
Proof.
  intros Hr Hex. unfold delete_schedule.
  rewrite (sqlite_integer_in_range sid Hr).
  destruct db as [rows seq]. simpl in *.
  do 2 f_equal.
  apply forallb_filter_id. apply forallb_forall. intros y Hy.
  destruct (matches_id sid y) eqn:Hm; [|reflexivity].
  assert (existsb (matches_id sid) rows = true)
    by (apply existsb_exists; eauto).
  congruence.
Qed.

Lemma delete_schedule_gone (sid : Z) (db : database) :
  MIN_ROWID <= sid <= MAX_ROWID ->
  existsb (matches_id sid) (schedules (snd (delete_schedule sid db))) = false.
Proof.
  intros Hr. unfold delete_schedule.
  rewrite (sqlite_integer_in_range sid Hr). simpl.
  destruct (existsb _ _) eqn:Hex; [|reflexivity].
  apply existsb_exists in Hex. destruct Hex as (r & Hin & Hm).
  apply filter_In in Hin. destruct Hin as [_ Hn]. now rewrite Hm in Hn.
Qed.

(** C3 (as amended): when the ids are unique and [sid], a 64-bit integer
    as every stored id is, is in the table, deleting it returns normally
    and removes exactly the one row with that id, so the listing is one
    row shorter; a second delete of the same id returns normally as well,
    with the same result and no not-found signal, and leaves the store as
    it was. *)
Theorem delete_schedule_by_id (db : database) (sid : Z) :
  unique_ids db ->
  MIN_ROWID <= sid <= MAX_ROWID ->
  existsb (matches_id sid) (schedules db) = true ->
  let out := delete_schedule sid db in
  fst out = Return tt
  /\ (exists r before after,
        schedules db = (before ++ r :: after)%list /\ id r = sid /\
        schedules (snd out) = (before ++ after)%list)
  /\ S (List.length (get_all_schedules (snd out)))
     = List.length (get_all_schedules db)
  /\ delete_schedule sid (snd out) = (Return tt, snd out).
Proof.
  intros Hu Hr Hex out.
  destruct (filter_unique_id sid (schedules db) Hu Hex)
    as (r & before & after & Hrows & Hid & Hf).
  assert (Hout : out = (Return tt,
                        {| schedules := filter
                             (fun r => negb (matches_id sid r)) (schedules db);
                           sqlite_sequence := sqlite_sequence db |})).
  { unfold out, delete_schedule.
    now rewrite (sqlite_integer_in_range sid Hr). }
  split; [now rewrite Hout|]. split; [|split].
  - exists r, before, after. rewrite Hout. auto.
  - rewrite !get_all_schedules_length. rewrite Hout. simpl.
    rewrite Hf, Hrows, !length_app. simpl. lia.
  - apply delete_schedule_absent; [exact Hr|].
    now apply delete_schedule_gone.
Qed.

(** Witness for C3: id 2 of the three-row table. *)
Lemma delete_schedule_by_id_witness :
  unique_ids three_inserts
  /\ MIN_ROWID <= 2 <= MAX_ROWID
  /\ existsb (matches_id 2) (schedules three_inserts) = true
  /\ S (List.length (get_all_schedules (snd (delete_schedule 2 three_inserts))))
     = List.length (get_all_schedules three_inserts)
  /\ delete_schedule 2 (snd (delete_schedule 2 three_inserts))
     = (Return tt, snd (delete_schedule 2 three_inserts)).
Proof.
  assert (Hu : unique_ids three_inserts).
  { unfold three_inserts, insert_dated.
    do 3 apply add_schedule_unique_ids. apply unique_ids_init. }
  assert (Hr : MIN_ROWID <= 2 <= MAX_ROWID)
    by (unfold MIN_ROWID, MAX_ROWID; lia).
  split; [exact Hu|]. split; [exact Hr|]. split; [reflexivity|].
  apply (delete_schedule_by_id three_inserts 2 Hu Hr eq_refl).
Defined.

(** C3 (the claim as stated fails): the second delete of id 2 does not
    signal not-found; it returns [None] exactly like the first. *)
Lemma second_delete_no_signal :
  existsb (matches_id 2) (schedules three_inserts) = true
  /\ fst (delete_schedule 2 three_inserts) = Return tt
  /\ existsb (matches_id 2) (schedules (snd (delete_schedule 2 three_inserts)))
     = false
  /\ fst (delete_schedule 2 (snd (delete_schedule 2 three_inserts)))
     = fst (delete_schedule 2 three_inserts).
Proof. repeat split; reflexivity. Qed.

(** ** What is checked before a row is written *)

Lemma add_schedule_stores (cn cc t : string) (l n : option string)
    (sd ss : string) (c : option string) (now : string) (db : database) :
  Z.max (sqlite_sequence db) (max_rowid (schedules db)) <> MAX_ROWID ->
  exists r,
    add_schedule (Some cn) (Some cc) (Some t) l n (Some sd) (Some ss) c now db
    = (Return tt,
       {| schedules := (schedules db ++ [r])%list;
          sqlite_sequence :=
            Z.max (sqlite_sequence db) (max_rowid (schedules db)) + 1 |})
    /\ id r = Z.max (sqlite_sequence db) (max_rowid (schedules db)) + 1
    /\ holds_fields r cn cc t l n sd ss c /\ created_at r = now.
Proof.
  intros Hmax. unfold add_schedule.
  apply Z.eqb_neq in Hmax. rewrite Hmax.
  eexists. split; [reflexivity|]. unfold holds_fields. simpl. tauto.
Qed.





(** ** Strings *)

Lemma string_app_nil_r (s : string) : s ++ EmptyString = s.
Proof. induction s as [|a s IH]; simpl; [reflexivity|now rewrite IH]. Qed.

Lemma string_app_assoc (s1 s2 s3 : string) :
  (s1 ++ s2) ++ s3 = s1 ++ (s2 ++ s3).
Proof. induction s1 as [|a s1 IH]; simpl; [reflexivity|now rewrite IH]. Qed.

(** [s[:n]] is the prefix of [n] characters when [s] has that many. *)
Lemma substring_prefix (n : nat) :
  forall s, (n <= String.length s)%nat ->
    String.length (substring 0 n s) = n
    /\ exists rest, s = substring 0 n s ++ rest.
Proof.
  induction n as [|n IH]; intros [|a s] Hlen; simpl in *; try lia.
  - split; [reflexivity|]. now exists EmptyString.
  - split; [reflexivity|]. now exists (String a s).
  - destruct (IH s) as (Hl & rest & Hrest); [lia|].
    split; [now rewrite Hl|]. exists rest. now rewrite <- Hrest.
Qed.

(** ** The PDF table *)

Lemma ellipsis40_long (s : string) :
  (40 < String.length s)%nat ->
  exists head rest,
    s = head ++ rest /\ String.length head = 40%nat
    /\ ellipsis40 (Some s) = Some (head ++ "...").
Proof.
  intros Hlen. destruct (substring_prefix 40 s) as (Hl & rest & Hrest); [lia|].
  exists (substring 0 40 s), rest. repeat split; try assumption.
  unfold ellipsis40. apply Nat.ltb_lt in Hlen. now rewrite Hlen.
Qed.

Lemma ellipsis40_short (s : string) :
  (String.length s <= 40)%nat -> ellipsis40 (Some s) = Some s.
Proof.
  intros Hlen. unfold ellipsis40.
  apply Nat.ltb_ge in Hlen. now rewrite Hlen.
Qed.

(** C6: in the table of the PDF, the line of the [i]-th entry of the
    listing shows, in the Lesson column (index 4) and in the Notes column
    (index 6), a value of more than 40 characters as its first 40
    characters followed by "...", and a value of 40 characters or fewer as
    it is. *)
Theorem pdf_truncates_long_text (db : database) (i : nat) (r : schedule) :
  nth_error (get_all_schedules db) i = Some r ->
  exists line,
    nth_error (pdf_data (generate_pdf db)) (S i) = Some line
    /\ (forall s, lesson r = Some s ->
          ((40 < String.length s)%nat ->
             exists head rest,
               s = head ++ rest /\ String.length head = 40%nat
               /\ nth_error line 4 = Some (Some (head ++ "...")))
          /\ ((String.length s <= 40)%nat ->
                nth_error line 4 = Some (Some s)))
    /\ (forall s, notes r = Some s ->
          ((40 < String.length s)%nat ->
             exists head rest,
               s = head ++ rest /\ String.length head = 40%nat
               /\ nth_error line 6 = Some (Some (head ++ "...")))
          /\ ((String.length s <= 40)%nat ->
                nth_error line 6 = Some (Some s))).
Proof.
  intros Hnth. exists (pdf_row r). split.
  - simpl. rewrite nth_error_map, Hnth. reflexivity.
  - split; intros s Hs; simpl; rewrite Hs; split; intros Hlen.
    + destruct (ellipsis40_long s Hlen) as (head & rest & H1 & H2 & H3).
      exists head, rest. now rewrite H3.
    + now rewrite ellipsis40_short.
    + destruct (ellipsis40_long s Hlen) as (head & rest & H1 & H2 & H3).
      exists head, rest. now rewrite H3.
    + now rewrite ellipsis40_short.
Qed.

(** Witness for C6: the only row of [long_notes]. *)
Lemma pdf_truncates_long_text_witness :
  nth_error (get_all_schedules long_notes) 0 = Some long_notes_row
  /\ exists line,
    nth_error (pdf_data (generate_pdf long_notes)) 1 = Some line
    /\ (forall s, lesson long_notes_row = Some s ->
          ((40 < String.length s)%nat ->
             exists head rest,
               s = head ++ rest /\ String.length head = 40%nat
               /\ nth_error line 4 = Some (Some (head ++ "...")))
          /\ ((String.length s <= 40)%nat ->
                nth_error line 4 = Some (Some s)))
    /\ (forall s, notes long_notes_row = Some s ->
          ((40 < String.length s)%nat ->
             exists head rest,
               s = head ++ rest /\ String.length head = 40%nat
               /\ nth_error line 6 = Some (Some (head ++ "...")))
          /\ ((String.length s <= 40)%nat ->
                nth_error line 6 = Some (Some s))).
Proof.
  split; [reflexivity|].
  apply (pdf_truncates_long_text long_notes 0 long_notes_row). reflexivity.
Defined.

(** The same row computed: 40 characters verbatim, 45 cut to 40 and
    "...". *)
Example pdf_of_long_notes :
  String.length text40 = 40%nat /\ String.length text45 = 45%nat
  /\ pdf_data (generate_pdf long_notes)
     = [pdf_header;
        [Some "2024-03-10"; Some "Morning"; Some "Calculus I"; Some "MATH101";
         Some text40; Some "Dr. Smith"; Some (text40 ++ "...")]].
Proof. repeat split. Qed.

(** ** The week of a date *)

Lemma weekday_range (d : date) : 0 <= weekday d <= 6.
Proof. unfold weekday. pose proof (Z.mod_pos_bound (toordinal d + 6) 7). lia. Qed.

Lemma add_days_in_range (d : date) (n : Z) :
  0 < toordinal d + n <= MAXORDINAL ->
  add_days d n = Return (fromordinal (toordinal d + n)).
Proof.
  intros [H1 H2]. unfold add_days.
  apply Z.ltb_lt in H1. apply Z.leb_le in H2. now rewrite H1, H2.
Qed.

Lemma add_days_out_of_range (d : date) (n : Z) :
  MAXORDINAL < toordinal d + n -> add_days d n = Raise OverflowError.
Proof.
  intros H. unfold add_days.
  apply Z.leb_gt in H. rewrite H. now rewrite andb_false_r.
Qed.

(** The first day, 0001-01-01, is a Monday, so going back to the Monday of
    a week never leaves the range of dates. *)
Lemma week_start_returns (d : date) :
  valid_date d ->
  week_start d = Return (fromordinal (toordinal d - weekday d))
  /\ 1 <= toordinal d - weekday d
  /\ (toordinal d - weekday d + 6) mod 7 = 0.
Proof.
  unfold valid_date. intros [Hlo Hhi].
  assert (H : 1 <= toordinal d - weekday d
              /\ (toordinal d - weekday d + 6) mod 7 = 0).
  { unfold weekday. Z.div_mod_to_equations. lia. }
  pose proof (weekday_range d) as Hw.
  split; [|exact H].
  unfold week_start, sub_days. rewrite add_days_in_range; [|lia].
  reflexivity.
Qed.

Lemma week_dates_returns (monday : date) :
  0 < toordinal monday -> toordinal monday + 6 <= MAXORDINAL ->
  week_dates monday
  = Return (map (fun i => fromordinal (toordinal monday + i)) range7).
Proof.
  intros Hlo Hhi. unfold week_dates, range7. cbn [comprehension map].
  rewrite !add_days_in_range by lia. reflexivity.
Qed.

Lemma week_dates_overflow (monday : date) :
  0 < toordinal monday -> MAXORDINAL < toordinal monday + 6 ->
  week_dates monday = Raise OverflowError.
Proof.
  intros Hlo Hhi. unfold week_dates, range7. cbn [comprehension].
  destruct (Z.le_gt_cases (toordinal monday + 0) MAXORDINAL) as [H0|H0];
    [rewrite (add_days_in_range _ 0) by lia
    |now rewrite add_days_out_of_range by lia].
  destruct (Z.le_gt_cases (toordinal monday + 1) MAXORDINAL) as [H1|H1];
    [rewrite (add_days_in_range _ 1) by lia
    |now rewrite add_days_out_of_range by lia].
  destruct (Z.le_gt_cases (toordinal monday + 2) MAXORDINAL) as [H2|H2];
    [rewrite (add_days_in_range _ 2) by lia
    |now rewrite add_days_out_of_range by lia].
  destruct (Z.le_gt_cases (toordinal monday + 3) MAXORDINAL) as [H3|H3];
    [rewrite (add_days_in_range _ 3) by lia
    |now rewrite add_days_out_of_range by lia].
  destruct (Z.le_gt_cases (toordinal monday + 4) MAXORDINAL) as [H4|H4];
    [rewrite (add_days_in_range _ 4) by lia
    |now rewrite add_days_out_of_range by lia].
  destruct (Z.le_gt_cases (toordinal monday + 5) MAXORDINAL) as [H5|H5];
    [rewrite (add_days_in_range _ 5) by lia
    |now rewrite add_days_out_of_range by lia].
  now rewrite add_days_out_of_range by lia.
Qed.

Lemma weekday_after_monday (o i : Z) :
  (o + 6) mod 7 = 0 -> 0 <= i <= 6 -> weekday (fromordinal (o + i)) = i.
Proof.
  unfold weekday. cbn [toordinal]. intros Hmod Hi.
  Z.div_mod_to_equations. lia.
Qed.

(** C8 (as amended): for every reference date whose week ends by
    9999-12-31, the largest date, [week_start] is the reference date minus
    its weekday (Monday 0 to Sunday 6), which is a Monday not after the
    reference date and less than 7 days before it; [week_dates] are that
    Monday plus 0 to 6 days, whose weekdays are 0 to 6 in this order, one
    for each of the labels Monday to Sunday.  For 2024-03-13 the week
    starts on 2024-03-11 and runs to 2024-03-17. *)
Theorem week_of_reference_date :
  (forall d : date,
     valid_date d ->
     toordinal d - weekday d + 6 <= MAXORDINAL ->
     exists monday dates,
       week_start d = Return monday
       /\ toordinal monday = toordinal d - weekday d
       /\ 0 <= weekday d <= 6
       /\ weekday monday = 0
       /\ week_dates monday = Return dates
       /\ dates = map (fun i => fromordinal (toordinal monday + i)) range7
       /\ map weekday dates = range7
       /\ map fst (combine days dates) = days
       /\ map snd (combine days dates) = dates)
  /\ week_start (mkdate 2024 3 13) = Return (mkdate 2024 3 11)
  /\ week_dates (mkdate 2024 3 11) = Return week_of_2024_03_11
  /\ map strftime_Y_m_d week_of_2024_03_11
     = ["2024-03-11"; "2024-03-12"; "2024-03-13"; "2024-03-14"; "2024-03-15";
        "2024-03-16"; "2024-03-17"]
  /\ weekday (mkdate 2024 3 13) = 2.
Proof.
  split; [|repeat split].
  intros d Hd Hhi.
  destruct (week_start_returns d Hd) as (Hws & Hlo & Hmod).
  exists (fromordinal (toordinal d - weekday d)).
  exists (map (fun i => fromordinal (toordinal d - weekday d + i)) range7).
  split; [exact Hws|]. split; [reflexivity|].
  split; [apply weekday_range|].
  split; [exact Hmod|].
  split; [apply week_dates_returns; simpl; lia|].
  split; [reflexivity|].
  split; [|split; reflexivity].
  unfold range7. cbn [map].
  rewrite !weekday_after_monday by (assumption || lia). reflexivity.
Qed.

(** Witness for C8: Wednesday 2024-03-13. *)
Lemma week_of_reference_date_witness :
  valid_date (mkdate 2024 3 13)
  /\ toordinal (mkdate 2024 3 13) - weekday (mkdate 2024 3 13) + 6
     <= MAXORDINAL
  /\ exists monday dates,
       week_start (mkdate 2024 3 13) = Return monday
       /\ toordinal monday
          = toordinal (mkdate 2024 3 13) - weekday (mkdate 2024 3 13)
       /\ 0 <= weekday (mkdate 2024 3 13) <= 6
       /\ weekday monday = 0
       /\ week_dates monday = Return dates
       /\ dates = map (fun i => fromordinal (toordinal monday + i)) range7
       /\ map weekday dates = range7
       /\ map fst (combine days dates) = days
       /\ map snd (combine days dates) = dates.
Proof.
  assert (Hv : valid_date (mkdate 2024 3 13)) by (vm_compute; split; discriminate).
  assert (Hw : toordinal (mkdate 2024 3 13) - weekday (mkdate 2024 3 13) + 6
               <= MAXORDINAL) by (vm_compute; discriminate).
  split; [exact Hv|]. split; [exact Hw|].
  exact (proj1 week_of_reference_date (mkdate 2024 3 13) Hv Hw).
Defined.

(** C8 (the claim as stated fails): for the reference date 9999-12-31, a
    Friday, the week starts on Monday 9999-12-27, but its Saturday would be
    10000-01-01 and computing [week_dates] raises [OverflowError]. *)
Lemma week_of_last_date_overflows :
  valid_date (mkdate 9999 12 31)
  /\ week_start (mkdate 9999 12 31) = Return (mkdate 9999 12 27)
  /\ week_dates (mkdate 9999 12 27) = Raise OverflowError.
Proof.
  split; [vm_compute; split; discriminate|]. split; reflexivity.
Qed.

(** ** The calendar grid *)

Lemma comprehension_length {A B : Type} (f : A -> result B) (l : list A) :
  forall ys, comprehension f l = Return ys -> List.length ys = List.length l.
Proof.
  induction l as [|x l IH]; simpl; intros ys H.
  - now injection H as <-.
  - destruct (f x); [|discriminate].
    destruct (comprehension f l); [|discriminate].
    injection H as <-. simpl. f_equal. now apply IH.
Qed.

Lemma nth_error_combine {A B : Type} (l1 : list A) :
  forall (l2 : list B) i a b,
    nth_error l1 i = Some a -> nth_error l2 i = Some b ->
    nth_error (combine l1 l2) i = Some (a, b).
Proof.
  induction l1 as [|x l1 IH]; intros [|y l2] [|i] a b; simpl;
    try discriminate.
  - now intros [= ->] [= ->].
  - apply IH.
Qed.

Lemma in_slot_spec (day_text slot : string) (r : schedule) :
  in_slot day_text slot r = true
  <-> study_date r = day_text /\ session r = slot.
Proof.
  unfold in_slot. now rewrite andb_true_iff, !String.eqb_eq.
Qed.

Lemma slot_elements_spec (df : list schedule) (d : date) (slot : string) :
  let matching := filter (in_slot (strftime_Y_m_d d) slot) df in
  (matching = [] -> slot_elements df d slot = [free slot])
  /\ (matching <> [] ->
      slot_elements df d slot
      = map (fun entry => card slot entry (lesson_text entry)) matching).
Proof.
  unfold slot_elements.
  destruct (filter _ df); split; intros H; congruence.
Qed.

(** C9 (as amended): when the listing is not empty, the grid has seven
    columns, one for each day name and date of the week, and the column of
    a day shows its Morning, Afternoon and Evening slot one after the
    other; a slot shows one card for every entry of the listing whose
    [study_date] equals the [%Y-%m-%d] text of the day and whose [session]
    equals the slot, all of them and in the order of the listing, and it
    shows the one "Free" box exactly when no entry matches.  When the
    listing is empty no grid is shown, for any week: the view is the
    notice alone. *)
Theorem calendar_grid_cells (db : database) (d monday : date)
    (dates : list date) :
  week_start d = Return monday ->
  week_dates monday = Return dates ->
  let df := get_all_schedules db in
  (df = [] ->
   weekly_calendar d db
   = Return (no_schedules (st_info
       "No schedules to display. Add schedules to see them in calendar view!")))
  /\
  (df <> [] ->
   exists title columns,
     weekly_calendar d db = Return (week_grid title columns)
     /\ List.length columns = 7%nat
     /\ forall i name dt,
          nth_error days i = Some name -> nth_error dates i = Some dt ->
          exists col,
            nth_error columns i = Some col
            /\ day_name col = name
            /\ day_slots col
               = (slot_elements df dt "Morning"
                  ++ slot_elements df dt "Afternoon"
                  ++ slot_elements df dt "Evening")%list
            /\ forall slot,
                 let matching :=
                   filter (in_slot (strftime_Y_m_d dt) slot) df in
                 (forall r, In r matching <->
                    In r df /\ study_date r = strftime_Y_m_d dt
                    /\ session r = slot)
                 /\ (matching = [] -> slot_elements df dt slot = [free slot])
                 /\ (matching <> [] ->
                     slot_elements df dt slot
                     = map (fun entry => card slot entry (lesson_text entry))
                           matching)).
Proof.
  intros Hws Hwd df. split.
  - intros Hdf. unfold weekly_calendar. rewrite Hws, Hwd. fold df.
    now rewrite Hdf.
  - intros Hne.
    unfold weekly_calendar. rewrite Hws, Hwd. fold df.
    destruct df as [|r0 rest] eqn:Hdf; [contradiction|]. rewrite <- Hdf.
    do 2 eexists. split; [reflexivity|].
    pose proof (comprehension_length _ _ _ Hwd) as Hlen.
    split.
    + rewrite length_map, length_combine, Hlen. reflexivity.
    + intros i name dt Hname Hdt.
      exists (column df (name, dt)). split; [|split; [|split]].
      * rewrite nth_error_map.
        now rewrite (nth_error_combine _ _ _ _ _ Hname Hdt).
      * reflexivity.
      * simpl. now rewrite app_nil_r.
      * intros slot. split.
        -- intros r. rewrite filter_In, in_slot_spec. tauto.
        -- apply slot_elements_spec.
Qed.

(** Witness for C9: the week of 2024-03-13 over the table with the one
    entry 2024-03-15/Afternoon, and over the new table. *)
Lemma calendar_grid_cells_witness :
  week_start (mkdate 2024 3 13) = Return (mkdate 2024 3 11)
  /\ week_dates (mkdate 2024 3 11) = Return week_of_2024_03_11
  /\ weekly_calendar (mkdate 2024 3 13) (init_db None)
     = Return (no_schedules (st_info
         "No schedules to display. Add schedules to see them in calendar view!"))
  /\ exists title columns,
    weekly_calendar (mkdate 2024 3 13) one_entry
      = Return (week_grid title columns)
    /\ List.length columns = 7%nat
    /\ forall i name dt,
         nth_error days i = Some name ->
         nth_error week_of_2024_03_11 i = Some dt ->
         exists col,
           nth_error columns i = Some col
           /\ day_name col = name
           /\ day_slots col
              = (slot_elements (get_all_schedules one_entry) dt "Morning"
                 ++ slot_elements (get_all_schedules one_entry) dt "Afternoon"
                 ++ slot_elements (get_all_schedules one_entry) dt "Evening")%list
           /\ forall slot,
                let matching :=
                  filter (in_slot (strftime_Y_m_d dt) slot)
                         (get_all_schedules one_entry) in
                (forall r, In r matching <->
                   In r (get_all_schedules one_entry)
                   /\ study_date r = strftime_Y_m_d dt /\ session r = slot)
                /\ (matching = [] ->
                    slot_elements (get_all_schedules one_entry) dt slot
                    = [free slot])
                /\ (matching <> [] ->
                    slot_elements (get_all_schedules one_entry) dt slot
                    = map (fun entry => card slot entry (lesson_text entry))
                          matching).
Proof.
  split; [reflexivity|]. split; [reflexivity|]. split.
  - exact (proj1 (calendar_grid_cells (init_db None) (mkdate 2024 3 13)
                    (mkdate 2024 3 11) week_of_2024_03_11 eq_refl eq_refl)
             eq_refl).
  - assert (Hne : get_all_schedules one_entry <> []) by discriminate.
    exact (proj2 (calendar_grid_cells one_entry (mkdate 2024 3 13)
                    (mkdate 2024 3 11) week_of_2024_03_11 eq_refl eq_refl)
             Hne).
Defined.

(** The same week computed: the entry is in the Afternoon slot of Friday
    and the 20 other slots show the "Free" box. *)
Example calendar_of_one_entry :
  exists title columns,
    weekly_calendar (mkdate 2024 3 13) one_entry
      = Return (week_grid title columns)
    /\ map day_name columns = days
    /\ map day_label columns
       = ["03/11"; "03/12"; "03/13"; "03/14"; "03/15"; "03/16"; "03/17"]
    /\ map day_slots columns
       = [[free "Morning"; free "Afternoon"; free "Evening"];
          [free "Morning"; free "Afternoon"; free "Evening"];
          [free "Morning"; free "Afternoon"; free "Evening"];
          [free "Morning"; free "Afternoon"; free "Evening"];
          [free "Morning";
           card "Afternoon" friday_row "Chapter 3: Derivatives";
           free "Evening"];
          [free "Morning"; free "Afternoon"; free "Evening"];
          [free "Morning"; free "Afternoon"; free "Evening"]].
Proof. do 2 eexists. split; [reflexivity|]. repeat split. Qed.

(** C9 (the claim as stated fails): over the empty table no grid is shown
    at all, only a notice; none of the 21 slots gets its "Free" box. *)
Lemma empty_listing_shows_no_grid :
  get_all_schedules (init_db None) = []
  /\ week_dates (mkdate 2024 3 11) = Return week_of_2024_03_11
  /\ weekly_calendar (mkdate 2024 3 13) (init_db None)
     = Return (no_schedules (st_info
         "No schedules to display. Add schedules to see them in calendar view!")).
Proof. repeat split. Qed.

(** ** The CSV export *)

Lemma utf8_char_decode (c : ascii) (bytes : list Byte.byte) :
  utf8_decode (utf8_char c ++ bytes) = option_map (String c) (utf8_decode bytes).
Proof.
  destruct c as [[] [] [] [] [] [] [] []]; reflexivity.
Qed.

Lemma utf8_decode_encode (s : string) : utf8_decode (utf8_encode s) = Some s.
Proof.
  induction s as [|c s IH]; [reflexivity|].
  cbn [utf8_encode]. now rewrite utf8_char_decode, IH.
Qed.

Lemma csv_special_false (c : ascii) :
  csv_special c = false ->
  Ascii.eqb c COMMA = false /\ Ascii.eqb c QUOTE = false
  /\ Ascii.eqb c LF = false.
Proof.
  unfold csv_special. rewrite !orb_false_iff. tauto.
Qed.

Lemma push_app (buf : string) (c : ascii) (s : string) :
  push buf c ++ s = buf ++ String c s.
Proof. unfold push. now rewrite string_app_assoc. Qed.

(** An unquoted field is read up to the comma or the line feed after it. *)
Lemma csv_reader_plain (f : string) :
  csv_needs_quotes f = false ->
  forall st buf fields rest,
    st = record_start \/ st = field_start \/ st = in_field ->
    csv_reader st buf fields (f ++ String COMMA rest)
    = csv_reader field_start EmptyString (finish fields (buf ++ f)) rest
    /\ csv_reader st buf fields (f ++ String LF rest)
       = finish fields (buf ++ f)
         :: csv_reader record_start EmptyString [] rest.
Proof.
  induction f as [|a f IH]; intros Hq st buf fields rest Hst.
  - rewrite string_app_nil_r.
    destruct Hst as [->|[->| ->]]; split; reflexivity.
  - cbn [csv_needs_quotes] in Hq. apply orb_false_iff in Hq.
    destruct Hq as [Ha Hq].
    destruct (csv_special_false a Ha) as (Hcomma & Hquote & Hlf).
    specialize (IH Hq in_field (push buf a) fields rest
                  (or_intror (or_intror eq_refl))).
    rewrite push_app in IH.
    destruct Hst as [->|[->| ->]]; cbn [append csv_reader];
      rewrite Hcomma, Hlf, ?Hquote; exact IH.
Qed.

(** The inside of a quoted field is read up to its closing quote. *)
Lemma csv_reader_quoted (f : string) :
  forall buf fields rest,
    csv_reader in_quoted buf fields (csv_double_quotes f ++ String QUOTE rest)
    = csv_reader quote_seen (buf ++ f) fields rest.
Proof.
  induction f as [|a f IH]; intros buf fields rest.
  - rewrite string_app_nil_r. reflexivity.
  - cbn [csv_double_quotes]. destruct (Ascii.eqb a QUOTE) eqn:Ha.
    + apply Ascii.eqb_eq in Ha. subst a.
      cbn [append csv_reader]. rewrite Ascii.eqb_refl.
      now rewrite IH, push_app.
    + cbn [append csv_reader]. rewrite Ha.
      now rewrite IH, push_app.
Qed.

(** A field as [csv_field] writes it is read back as it was. *)
Lemma csv_reader_field (f : string) (st : reader_state)
    (fields : list string) (rest : string) :
  st = record_start \/ st = field_start ->
  csv_reader st EmptyString fields (csv_field f ++ String COMMA rest)
  = csv_reader field_start EmptyString (finish fields f) rest
  /\ csv_reader st EmptyString fields (csv_field f ++ String LF rest)
     = finish fields f :: csv_reader record_start EmptyString [] rest.
Proof.
  intros Hst. unfold csv_field.
  destruct (csv_needs_quotes f) eqn:Hq.
  - cbn [append]. rewrite !string_app_assoc.
    assert (Hopen : forall tail,
      csv_reader st EmptyString fields (String QUOTE tail)
      = csv_reader in_quoted EmptyString fields tail)
      by (intros; destruct Hst as [->| ->]; reflexivity).
    cbn [append]. rewrite !Hopen, !csv_reader_quoted. split; reflexivity.
  - apply (csv_reader_plain f Hq st EmptyString fields rest). tauto.
Qed.

(** A line is read back as the list of its fields. *)
Lemma csv_reader_line (fs : list string) :
  fs <> [] ->
  forall st fields rest,
    st = record_start \/ st = field_start ->
    csv_reader st EmptyString fields (csv_join fs ++ String LF rest)
    = (fields ++ fs)%list :: csv_reader record_start EmptyString [] rest.
Proof.
  induction fs as [|f fs IH]; [contradiction|]. intros _ st fields rest Hst.
  destruct fs as [|g fs].
  - cbn [csv_join]. apply (csv_reader_field f st fields rest Hst).
  - change (csv_join (f :: g :: fs))
      with (csv_field f ++ String COMMA (csv_join (g :: fs))).
    rewrite string_app_assoc. cbn [append].
    rewrite (proj1 (csv_reader_field f st fields _ Hst)).
    rewrite IH; [|discriminate|tauto].
    unfold finish. now rewrite <- app_assoc.
Qed.

Lemma read_csv_lines (records : list (list string)) :
  Forall (fun r => r <> []) records ->
  read_csv (csv_lines records) = records.
Proof.
  unfold read_csv. induction 1 as [|r records Hr _ IH]; [reflexivity|].
  cbn [csv_lines]. unfold csv_line. rewrite string_app_assoc. cbn [append].
  rewrite csv_reader_line; [|exact Hr|tauto]. now rewrite IH.
Qed.











(** A value with a comma, quotes and a line break is written between
    quotes with its quotes doubled, and read back unchanged. *)
Example csv_field_escaped :
  let value := "a," ++ String QUOTE ("b" ++ String QUOTE (String LF "c")) in
  csv_field value
  = String QUOTE ("a," ++ String QUOTE (String QUOTE ("b" ++ String QUOTE
      (String QUOTE (String LF ("c" ++ String QUOTE EmptyString))))))
  /\ csv_field "plain text" = "plain text"
  /\ read_csv (csv_line [value; "plain text"]) = [[value; "plain text"]].
Proof. repeat split. Qed.

(** * Further properties of the repository *)

Lemma max_rowid_nonneg (rows : list schedule) : 0 <= max_rowid rows.
Proof. induction rows as [|x rows IH]; simpl; lia. Qed.

(** X1: when [add_schedule] returns, the table has exactly one more row, at
    its end; the row holds the given values and the given time, its id is
    larger than every id of the table, and the listing is the old listing
    with this row added. *)
Theorem add_schedule_then_listed
    (cn cc t l n sd ss c : option string) (now : string) (db db' : database) :
  add_schedule cn cc t l n sd ss c now db = (Return tt, db') ->
  exists r,
    schedules db' = (schedules db ++ [r])%list
    /\ Permutation (r :: get_all_schedules db) (get_all_schedules db')
    /\ cn = Some (course_name r) /\ cc = Some (course_code r)
    /\ t = Some (teacher r) /\ l = lesson r /\ n = notes r
    /\ sd = Some (study_date r) /\ ss = Some (session r) /\ c = color r
    /\ created_at r = now
    /\ sqlite_sequence db' = id r
    /\ forall r', In r' (schedules db) -> id r' < id r.
Proof.
  unfold add_schedule.
  destruct (Z.eqb _ MAX_ROWID); [discriminate|].
  destruct cn, cc, t, sd, ss; try discriminate.
  intros [= <-]. eexists. split; [reflexivity|]. split.
  - rewrite <- !get_all_schedules_perm. cbn [schedules].
    apply Permutation_cons_append.
  - cbn. repeat split.
    intros r' Hin. apply max_rowid_bound in Hin. lia.
Qed.

(** Witness for X1: a fourth insert into the three-row table. *)
Lemma add_schedule_then_listed_witness :
  exists r,
    schedules (insert_dated "2024-03-12" "Afternoon" three_inserts)
    = (schedules three_inserts ++ [r])%list
    /\ Permutation (r :: get_all_schedules three_inserts)
         (get_all_schedules (insert_dated "2024-03-12" "Afternoon" three_inserts))
    /\ Some "Calculus I" = Some (course_name r)
    /\ Some "MATH101" = Some (course_code r)
    /\ Some "Dr. Smith" = Some (teacher r)
    /\ Some "Chapter 3: Derivatives" = lesson r
    /\ Some EmptyString = notes r
    /\ Some "2024-03-12" = Some (study_date r)
    /\ Some "Afternoon" = Some (session r)
    /\ Some "#4CAF50" = color r
    /\ created_at r = "2024-03-01 08:00:00"
    /\ sqlite_sequence (insert_dated "2024-03-12" "Afternoon" three_inserts)
       = id r
    /\ forall r', In r' (schedules three_inserts) -> id r' < id r.
Proof.
  apply (add_schedule_then_listed (Some "Calculus I") (Some "MATH101")
           (Some "Dr. Smith") (Some "Chapter 3: Derivatives")
           (Some EmptyString) (Some "2024-03-12") (Some "Afternoon")
           (Some "#4CAF50") "2024-03-01 08:00:00" three_inserts).
  reflexivity.
Defined.

(** ** Invariants of every sequence of calls *)

Lemma max_rowid_le (rows : list schedule) (m : Z) :
  0 <= m -> (forall r, In r rows -> id r <= m) -> max_rowid rows <= m.
Proof.
  intros Hm. induction rows as [|x rows IH]; simpl; intros H; [exact Hm|].
  apply Z.max_lub; [apply H; now left|]. apply IH. intros r Hr. apply H. now right.
Qed.

Lemma execute_keeps_invariants (call : statement) (db : database) :
  unique_ids db /\ ids_bounded db /\ 0 <= sqlite_sequence db <= MAX_ROWID ->
  unique_ids (execute call db) /\ ids_bounded (execute call db)
  /\ 0 <= sqlite_sequence (execute call db) <= MAX_ROWID
  /\ sqlite_sequence db <= sqlite_sequence (execute call db).
Proof.
  intros (Hu & Hb & Hseq).
  destruct call as [cn cc t l n sd ss c now|sid cn cc t l n sd ss c|sid].
  - split; [now apply add_schedule_unique_ids|].
    cbn [execute]. unfold add_schedule.
    assert (Hlast : Z.max (sqlite_sequence db) (max_rowid (schedules db))
                    = sqlite_sequence db).
    { apply Z.max_l. apply max_rowid_le; [lia|].
      intros r Hr. now apply Hb. }
    rewrite Hlast.
    destruct (Z.eqb_spec (sqlite_sequence db) MAX_ROWID) as [|Hne];
      [cbn [snd]; split; [exact Hb|lia]|].
    destruct cn, cc, t, sd, ss;
      try (cbn [snd]; split; [exact Hb|lia]).
    cbn [snd sqlite_sequence schedules]. split; [|lia].
    intros r Hr. apply in_app_or in Hr. destruct Hr as [Hr|[<-|[]]].
    + specialize (Hb r Hr). cbn [sqlite_sequence]. lia.
    + cbn [id sqlite_sequence]. lia.
  - split; [now apply update_schedule_unique_ids|].
    cbn [execute].
    assert (Hs : sqlite_sequence
                   (snd (update_schedule sid cn cc t l n sd ss c db))
                 = sqlite_sequence db).
    { unfold update_schedule.
      destruct (negb (sqlite_integer sid)); [reflexivity|].
      destruct (existsb _ _); [|reflexivity].
      destruct cn, cc, t, sd, ss; reflexivity. }
    rewrite Hs. split; [|lia].
    intros r Hr. rewrite Hs.
    assert (Hid : In (id r) (map id (schedules db))).
    { rewrite <- (update_schedule_ids sid cn cc t l n sd ss c db).
      now apply in_map. }
    apply in_map_iff in Hid. destruct Hid as (r' & <- & Hr').
    now apply Hb.
  - split; [now apply delete_schedule_unique_ids|].
    cbn [execute]. unfold delete_schedule.
    destruct (negb (sqlite_integer sid));
      cbn [snd sqlite_sequence schedules]; (split; [|lia]);
      [exact Hb|].
    intros r Hr. cbn [schedules sqlite_sequence] in *.
    apply filter_In in Hr. apply Hb. tauto.
Qed.

Lemma run_keeps_invariants (calls : list statement) :
  forall db,
    unique_ids db /\ ids_bounded db /\ 0 <= sqlite_sequence db <= MAX_ROWID ->
    unique_ids (run calls db) /\ ids_bounded (run calls db)
    /\ 0 <= sqlite_sequence (run calls db) <= MAX_ROWID
    /\ sqlite_sequence db <= sqlite_sequence (run calls db).
Proof.
  induction calls as [|call calls IH]; intros db Hinv.
  - cbn [run fold_left]. destruct Hinv as (Hu & Hb & Hseq).
    split; [exact Hu|]. split; [exact Hb|]. lia.
  - cbn [run fold_left].
    destruct (execute_keeps_invariants call db Hinv) as (H1 & H2 & H3 & H4).
    destruct (IH (execute call db) (conj H1 (conj H2 H3)))
      as (H5 & H6 & H7 & H8).
    split; [exact H5|]. split; [exact H6|]. split; [exact H7|].
    unfold run in H8. lia.
Qed.

Lemma new_file_invariants :
  unique_ids (init_db None) /\ ids_bounded (init_db None)
  /\ 0 <= sqlite_sequence (init_db None) <= MAX_ROWID.
Proof.
  split; [apply unique_ids_init|]. split; [intros r []|].
  cbn. unfold MAX_ROWID. lia.
Qed.

(** X2: whatever calls are made on a new database file, in any order and
    whether they return or raise, no two rows of the table share an id,
    every id is positive and at most the counter of [sqlite_sequence], and
    the counter stays within the range of rowids. *)
Theorem reachable_ids_unique_and_bounded (calls : list statement) :
  let db := run calls (init_db None) in
  unique_ids db
  /\ (forall r, In r (schedules db) -> 0 < id r <= sqlite_sequence db)
  /\ 0 <= sqlite_sequence db <= MAX_ROWID.
Proof.
  destruct (run_keeps_invariants calls _ new_file_invariants)
    as (H1 & H2 & H3 & _).
  cbn zeta. split; [exact H1|]. split; [exact H2|exact H3].
Qed.

(** X3: ids are never reused.  A row written by a later [add_schedule] has
    an id larger than the id of any row that was in the table at an earlier
    time, whatever calls (deletes included) were made in between. *)
Theorem ids_never_reused (before between : list statement) (old : schedule)
    (cn cc t l n sd ss c : option string) (now : string) (db' : database) :
  let earlier := run before (init_db None) in
  let later := run between earlier in
  In old (schedules earlier) ->
  add_schedule cn cc t l n sd ss c now later = (Return tt, db') ->
  exists r,
    schedules db' = (schedules later ++ [r])%list /\ id old < id r.
Proof.
  intros earlier later Hold Hadd.
  destruct (run_keeps_invariants before _ new_file_invariants)
    as (H1 & H2 & H3 & _).
  destruct (run_keeps_invariants between earlier (conj H1 (conj H2 H3)))
    as (_ & _ & _ & Hmono).
  fold earlier in H2. specialize (H2 old Hold). fold later in Hmono.
  revert Hadd. unfold add_schedule.
  destruct (Z.eqb _ MAX_ROWID); [discriminate|].
  destruct cn, cc, t, sd, ss; try discriminate.
  intros [= <-]. eexists. split; [reflexivity|]. cbn [id]. lia.
Qed.

(** Witness for X3: the only row is deleted before the next insert. *)
Lemma ids_never_reused_witness :
  In first_row (schedules (run [Add (Some "Calculus I") (Some "MATH101")
      (Some "Dr. Smith") (Some "Chapter 3: Derivatives") (Some EmptyString)
      (Some "2024-03-10") (Some "Evening") (Some "#4CAF50")
      "2024-03-01 08:00:00"] (init_db None)))
  /\ exists r,
       schedules (insert_dated "2024-03-10" "Evening"
                    (run [Delete 1] (insert_dated "2024-03-10" "Evening"
                                       (init_db None))))
       = (schedules (run [Delete 1] (insert_dated "2024-03-10" "Evening"
                                        (init_db None))) ++ [r])%list
       /\ id first_row < id r.
Proof.
  split; [left; reflexivity|].
  apply (ids_never_reused
           [Add (Some "Calculus I") (Some "MATH101") (Some "Dr. Smith")
              (Some "Chapter 3: Derivatives") (Some EmptyString)
              (Some "2024-03-10") (Some "Evening") (Some "#4CAF50")
              "2024-03-01 08:00:00"]
           [Delete 1] first_row
           (Some "Calculus I") (Some "MATH101") (Some "Dr. Smith")
           (Some "Chapter 3: Derivatives") (Some EmptyString)
           (Some "2024-03-10") (Some "Evening") (Some "#4CAF50")
           "2024-03-01 08:00:00").
  - left; reflexivity.
  - reflexivity.
Defined.

(** ** The listing *)

Lemma order_by_sorted (rows : list schedule) :
  StronglySorted (fun a b => order_by_leb a b = true) (order_by rows).
Proof.
  induction rows as [|r rows IH]; simpl; [constructor|].
  now apply order_insert_sorted.
Qed.




Lemma order_insert_first (r : schedule) (rows : list schedule) :
  Forall (fun y => order_by_leb r y = true) rows ->
  order_insert r rows = r :: rows.
Proof.
  destruct 1 as [|x rows Hx _]; simpl; [reflexivity|]. now rewrite Hx.
Qed.

Lemma filter_order_insert (p : schedule -> bool) (r : schedule)
    (rows : list schedule) :
  StronglySorted (fun a b => order_by_leb a b = true) rows ->
  filter p (order_insert r rows)
  = if p r then order_insert r (filter p rows) else filter p rows.
Proof.
  induction 1 as [|x rows Hs IH Hx]; simpl.
  - now destruct (p r).
  - destruct (order_by_leb r x) eqn:Hrx; simpl.
    + destruct (p r) eqn:Hr; [|reflexivity].
      destruct (p x) eqn:Hpx; simpl; [now rewrite Hrx|].
      symmetry. apply order_insert_first.
      apply Forall_forall. intros y Hy. apply filter_In in Hy.
      rewrite Forall_forall in Hx.
      apply (order_by_leb_trans r x y Hrx). apply Hx. tauto.
    + rewrite IH. destruct (p x) eqn:Hpx; destruct (p r); simpl;
        rewrite ?Hrx; reflexivity.
Qed.

Lemma order_by_filter (p : schedule -> bool) (rows : list schedule) :
  order_by (filter p rows) = filter p (order_by rows).
Proof.
  induction rows as [|r rows IH]; simpl; [reflexivity|].
  rewrite filter_order_insert by apply order_by_sorted.
  destruct (p r); simpl; now rewrite IH.
Qed.

(** X5: deleting an id changes the listing only by taking out the entries
    with that id; the other entries stay, in the order they were listed.
    (An id that is no 64-bit integer cannot be bound; the call raises and
    the listing stays as it was.) *)
Theorem delete_schedule_keeps_listing_order (sid : Z) (db : database) :
  get_all_schedules (snd (delete_schedule sid db))
  = if sqlite_integer sid
    then filter (fun r => negb (matches_id sid r)) (get_all_schedules db)
    else get_all_schedules db.
Proof.
  unfold get_all_schedules, delete_schedule.
  destruct (sqlite_integer sid); cbn; [apply order_by_filter|reflexivity].
Qed.

(** ** Updates compose *)

Lemma update_schedule_presence sid cn cc t l n sd ss c (db : database)
    (sid' : Z) :
  existsb (matches_id sid')
    (schedules (snd (update_schedule sid cn cc t l n sd ss c db)))
  = existsb (matches_id sid') (schedules db).
Proof.
  pose proof (update_schedule_ids sid cn cc t l n sd ss c db) as Hids.
  revert Hids.
  generalize (schedules (snd (update_schedule sid cn cc t l n sd ss c db))).
  generalize (schedules db).
  induction l0 as [|x rows IH]; intros [|y rows'] Hids; try discriminate;
    [reflexivity|].
  cbn in Hids. injection Hids as Hid Hrest. cbn. unfold matches_id at 1 3.
  rewrite Hid. f_equal. now apply IH.
Qed.

(** X6: the last update of an id wins, whatever values an earlier update
    of the same id wrote; in particular an update made twice leaves the
    same store as the update made once. *)
Theorem update_schedule_last_wins (sid : Z)
    (cn cc t : string) (l n : option string) (sd ss : string)
    (c : option string)
    (cn' cc' t' : string) (l' n' : option string) (sd' ss' : string)
    (c' : option string) (db : database) :
  let first := update_schedule sid (Some cn') (Some cc') (Some t') l' n'
                 (Some sd') (Some ss') c' db in
  update_schedule sid (Some cn) (Some cc) (Some t) l n (Some sd) (Some ss) c
    (snd first)
  = update_schedule sid (Some cn) (Some cc) (Some t) l n (Some sd) (Some ss) c
      db.
Proof.
  intros first.
  assert (Hp : existsb (matches_id sid) (schedules (snd first))
               = existsb (matches_id sid) (schedules db))
    by apply update_schedule_presence.
  unfold update_schedule at 1. rewrite Hp.
  unfold first, update_schedule.
  destruct (negb (sqlite_integer sid)); [reflexivity|].
  destruct (existsb (matches_id sid) (schedules db)) eqn:Hex; [|reflexivity].
  cbn [snd schedules sqlite_sequence].
  do 2 f_equal. rewrite map_map. apply map_ext. intros r.
  destruct (matches_id sid r) eqn:Hm.
  - unfold matches_id. cbn [id]. fold (matches_id sid r). now rewrite Hm.
  - now rewrite Hm.
Qed.

(** ** The manage tab *)

Lemma before_colon_digits (d : Decimal.uint) (rest : string) :
  before_colon (NilEmpty.string_of_uint d ++ String COLON rest)
  = NilEmpty.string_of_uint d.
Proof.
  induction d as [|d IH|d IH|d IH|d IH|d IH|d IH|d IH|d IH|d IH|d IH];
    cbn; [reflexivity|now rewrite IH..].
Qed.

Lemma before_colon_str_of_int (n : Z) (rest : string) :
  before_colon (str_of_int n ++ String COLON rest) = str_of_int n.
Proof.
  unfold str_of_int, NilZero.string_of_int, NilZero.string_of_uint.
  destruct (Z.to_int n) as [d|d]; destruct d eqn:Hd;
    try reflexivity; rewrite <- Hd;
    cbn [append before_colon]; try change (Ascii.eqb "-" COLON) with false;
    cbv iota; now rewrite before_colon_digits.
Qed.

Lemma str_of_int_inj (a b : Z) : str_of_int a = str_of_int b -> a = b.
Proof.
  unfold str_of_int. intros H. apply DecimalZ.to_int_inj.
  assert (Hn : forall n, NilZero.int_of_string
                           (NilZero.string_of_int (Z.to_int n))
                         = Some (Z.to_int n)).
  { intros n. apply NilZero.isi; destruct n; cbn; try discriminate;
      intros [= E]; now apply Unsigned.to_uint_nonnil in E. }
  apply (f_equal NilZero.int_of_string) in H. rewrite !Hn in H.
  now injection H.
Qed.

Lemma row_by_id_unique (df : list schedule) (r : schedule) :
  NoDup (map id df) -> In r df -> row_by_id (id r) df = Some r.
Proof.
  unfold row_by_id.
  induction df as [|x df IH]; cbn; [contradiction|].
  intros Hu Hin. inversion Hu as [|? ? Hnotin Hrest]; subst.
  unfold matches_id at 1. destruct (Z.eqb_spec (id x) (id r)) as [Heq|Hne].
  - destruct Hin as [->|Hin]; [reflexivity|].
    exfalso. apply Hnotin. rewrite Heq. now apply in_map.
  - destruct Hin as [->|Hin]; [contradiction|]. now apply IH.
Qed.

(** X7: in the select box of the manage tab, the text before the first
    colon of an option is the decimal id of its row, whatever colons the
    course name contains; with unique ids two rows of the listing never
    share an option text, and looking the id up in the listing gives the
    row of the option. *)
Theorem option_identifies_row (df : list schedule) (r : schedule) :
  NoDup (map id df) ->
  In r df ->
  before_colon (schedule_label r) = str_of_int (id r)
  /\ (forall r', In r' df -> schedule_label r' = schedule_label r -> r' = r)
  /\ row_by_id (id r) df = Some r.
Proof.
  intros Hu Hin.
  assert (Hlabel : forall x, before_colon (schedule_label x) = str_of_int (id x))
    by (intros x; apply before_colon_str_of_int).
  split; [apply Hlabel|]. split; [|now apply row_by_id_unique].
  intros r' Hin' Heq.
  assert (Hid : id r' = id r).
  { apply str_of_int_inj. now rewrite <- !Hlabel, Heq. }
  pose proof (row_by_id_unique df r Hu Hin) as H1.
  pose proof (row_by_id_unique df r' Hu Hin') as H2.
  rewrite Hid in H2. congruence.
Qed.

(** Witness for X7: the first row of the three-row table. *)
Lemma option_identifies_row_witness :
  NoDup (map id (get_all_schedules three_inserts))
  /\ In first_row (get_all_schedules three_inserts)
  /\ before_colon (schedule_label first_row) = str_of_int (id first_row)
  /\ (forall r', In r' (get_all_schedules three_inserts) ->
        schedule_label r' = schedule_label first_row -> r' = first_row)
  /\ row_by_id (id first_row) (get_all_schedules three_inserts)
     = Some first_row.
Proof.
  assert (Hu : NoDup (map id (get_all_schedules three_inserts))).
  { cbn. repeat constructor; cbn; intuition discriminate. }
  assert (Hin : In first_row (get_all_schedules three_inserts))
    by (right; left; reflexivity).
  split; [exact Hu|]. split; [exact Hin|].
  exact (option_identifies_row _ first_row Hu Hin).
Defined.

(** ** Further properties of the calendar *)

(** X9: every date of a week has the same week start: picking any of the
    seven days shown leads to the Monday of the week shown. *)
Theorem week_start_same_within_week (d : date) (i : Z) :
  valid_date d ->
  toordinal d - weekday d + 6 <= MAXORDINAL ->
  0 <= i <= 6 ->
  week_start (fromordinal (toordinal d - weekday d + i)) = week_start d.
Proof.
  intros Hd Hhi Hi.
  destruct (week_start_returns d Hd) as (Hws & Hlo & Hmod).
  assert (Hd' : valid_date (fromordinal (toordinal d - weekday d + i)))
    by (unfold valid_date; cbn [toordinal]; lia).
  destruct (week_start_returns _ Hd') as (Hws' & _ & _).
  rewrite Hws, Hws'. rewrite (weekday_after_monday _ i Hmod Hi).
  cbn [toordinal]. do 2 f_equal. lia.
Qed.

(** Witness for X9: Sunday 2024-03-17 in the week of Wednesday 2024-03-13. *)
Lemma week_start_same_within_week_witness :
  week_start (fromordinal (toordinal (mkdate 2024 3 13)
                           - weekday (mkdate 2024 3 13) + 6))
  = week_start (mkdate 2024 3 13).
Proof.
  apply (week_start_same_within_week (mkdate 2024 3 13) 6).
  - vm_compute. split; discriminate.
  - vm_compute. discriminate.
  - lia.
Defined.

(** X10: for a valid reference date the calendar raises [OverflowError]
    exactly when the Sunday of its week is after 9999-12-31, and it does so
    whatever the table holds, the empty table included. *)
Theorem weekly_calendar_overflow (d : date) (db : database) :
  valid_date d ->
  (weekly_calendar d db = Raise OverflowError
   <-> MAXORDINAL < toordinal d - weekday d + 6).
Proof.
  intros Hd. destruct (week_start_returns d Hd) as (Hws & Hlo & _).
  unfold weekly_calendar. rewrite Hws.
  destruct (Z.le_gt_cases (toordinal d - weekday d + 6) MAXORDINAL) as [H|H].
  - rewrite week_dates_returns by (cbn [toordinal]; lia).
    split; [|lia]. destruct (get_all_schedules db); discriminate.
  - rewrite week_dates_overflow by (cbn [toordinal]; lia).
    split; [lia|reflexivity].
Qed.

(** Witness for X10: 2024-03-13 is a valid date. *)
Lemma weekly_calendar_overflow_witness :
  weekly_calendar (mkdate 2024 3 13) three_inserts = Raise OverflowError
  <-> MAXORDINAL < toordinal (mkdate 2024 3 13) - weekday (mkdate 2024 3 13) + 6.
Proof.
  apply (weekly_calendar_overflow (mkdate 2024 3 13) three_inserts).
  vm_compute. split; discriminate.
Defined.

Lemma in_slot_elements_card (df : list schedule) (d : date)
    (slot slot' : string) (entry : schedule) (text : string) :
  In (card slot' entry text) (slot_elements df d slot)
  <-> slot' = slot /\ text = lesson_text entry /\ In entry df
      /\ study_date entry = strftime_Y_m_d d /\ session entry = slot.
Proof.
  unfold slot_elements.
  destruct (filter (in_slot (strftime_Y_m_d d) slot) df) as [|x rest] eqn:Hf.
  - split.
    + intros [H|[]]. discriminate.
    + intros (_ & _ & Hin & Hd & Hs).
      assert (In entry (filter (in_slot (strftime_Y_m_d d) slot) df))
        by (apply filter_In; split; [assumption|now apply in_slot_spec]).
      rewrite Hf in H. contradiction.
  - rewrite <- Hf. rewrite in_map_iff. split.
    + intros (e & [= <- <- <-] & Hin). apply filter_In in Hin.
      destruct Hin as [Hin Hs]. apply in_slot_spec in Hs. tauto.
    + intros (-> & -> & Hin & Hd & Hs). exists entry. split; [reflexivity|].
      apply filter_In. split; [assumption|now apply in_slot_spec].
Qed.

Lemma in_slot_elements_free (df : list schedule) (d : date)
    (slot slot' : string) :
  In (free slot') (slot_elements df d slot)
  <-> slot' = slot
      /\ forall entry, In entry df ->
           ~ (study_date entry = strftime_Y_m_d d /\ session entry = slot).
Proof.
  unfold slot_elements.
  destruct (filter (in_slot (strftime_Y_m_d d) slot) df) as [|x rest] eqn:Hf.
  - split.
    + intros [[= <-]|[]]. split; [reflexivity|].
      intros entry Hin Hm. apply in_slot_spec in Hm.
      assert (In entry (filter (in_slot (strftime_Y_m_d d) slot) df))
        by (apply filter_In; tauto).
      rewrite Hf in H. contradiction.
    + intros [-> _]. now left.
  - split.
    + rewrite <- Hf, in_map_iff. intros (e & [=] & _).
    + intros [_ Hnone]. exfalso.
      assert (Hx : In x (filter (in_slot (strftime_Y_m_d d) slot) df))
        by (rewrite Hf; now left).
      apply filter_In in Hx. destruct Hx as [Hin Hs].
      apply in_slot_spec in Hs. exact (Hnone x Hin Hs).
Qed.

(** X11: in the column of a day, a card is shown for an entry exactly when
    the entry is in the listing, its date text is that of the day and its
    session is the slot of the card, one of the three; so an entry of
    another week, or one whose session is none of the three, is shown
    nowhere.  The "Free" box of a slot is shown exactly when no entry of
    the listing has that day and that slot. *)
Theorem column_shows_matching_entries (df : list schedule) (name : string)
    (d : date) (slot : string) :
  (forall entry text,
     In (card slot entry text) (day_slots (column df (name, d)))
     <-> In slot sessions /\ text = lesson_text entry /\ In entry df
         /\ study_date entry = strftime_Y_m_d d /\ session entry = slot)
  /\ (In (free slot) (day_slots (column df (name, d)))
      <-> In slot sessions
          /\ forall entry, In entry df ->
               ~ (study_date entry = strftime_Y_m_d d /\ session entry = slot)).
Proof.
  cbn [column day_slots]. split.
  - intros entry text. rewrite in_flat_map. split.
    + intros (s & Hs & Hin). apply in_slot_elements_card in Hin.
      destruct Hin as (-> & Hrest). tauto.
    + intros (Hs & Hrest). exists slot. split; [exact Hs|].
      apply in_slot_elements_card. tauto.
  - rewrite in_flat_map. split.
    + intros (s & Hs & Hin). apply in_slot_elements_free in Hin.
      destruct Hin as (-> & Hrest). tauto.
    + intros (Hs & Hrest). exists slot. split; [exact Hs|].
      apply in_slot_elements_free. tauto.
Qed.

(** ** Further properties of the exports *)

Lemma string_length_app (s1 s2 : string) :
  String.length (s1 ++ s2) = (String.length s1 + String.length s2)%nat.
Proof. induction s1 as [|a s1 IH]; cbn; [reflexivity|now rewrite IH]. Qed.

Lemma ellipsis40_bound (v : option string) (s : string) :
  ellipsis40 v = Some s -> (String.length s <= 43)%nat.
Proof.
  destruct v as [x|]; [|discriminate]. unfold ellipsis40.
  destruct (Nat.ltb 40 (String.length x)) eqn:Hlt; intros [= <-].
  - apply Nat.ltb_lt in Hlt.
    destruct (substring_prefix 40 x) as [Hl _]; [lia|].
    rewrite string_length_app, Hl. cbn. lia.
  - apply Nat.ltb_ge in Hlt. lia.
Qed.

(** X12: the table of the PDF has one line for the header and one for each
    entry of the listing, every line has seven cells, and no text in the
    Lesson or the Notes column is longer than 43 characters. *)
Theorem pdf_table_shape (db : database) (line : list (option string)) :
  In line (pdf_data (generate_pdf db)) ->
  List.length (pdf_data (generate_pdf db))
  = S (List.length (get_all_schedules db))
  /\ List.length line = 7%nat
  /\ forall s,
       nth_error line 4 = Some (Some s) \/ nth_error line 6 = Some (Some s) ->
       (String.length s <= 43)%nat.
Proof.
  cbn [generate_pdf pdf_data]. intros Hin.
  split; [cbn; now rewrite length_map|].
  destruct Hin as [<-|Hin].
  - split; [reflexivity|]. intros s [[= <-]|[= <-]]; cbn; lia.
  - apply in_map_iff in Hin. destruct Hin as (r & <- & _).
    split; [reflexivity|]. cbn. intros s [H|H]; injection H as H;
      now apply ellipsis40_bound in H.
Qed.

(** Witness for X12: the line of the row with notes of 45 characters. *)
Lemma pdf_table_shape_witness :
  List.length (pdf_data (generate_pdf long_notes))
  = S (List.length (get_all_schedules long_notes))
  /\ List.length (pdf_row long_notes_row) = 7%nat
  /\ forall s,
       nth_error (pdf_row long_notes_row) 4 = Some (Some s)
       \/ nth_error (pdf_row long_notes_row) 6 = Some (Some s) ->
       (String.length s <= 43)%nat.
Proof.
  apply (pdf_table_shape long_notes (pdf_row long_notes_row)).
  right. left. reflexivity.
Defined.

Lemma utf8_encode_inj (s1 s2 : string) :
  utf8_encode s1 = utf8_encode s2 -> s1 = s2.
Proof.
  intros H. apply (f_equal utf8_decode) in H.
  rewrite !utf8_decode_encode in H. now injection H.
Qed.

Lemma to_csv_inj (df1 df2 : list schedule) :
  to_csv df1 = to_csv df2 -> map csv_values df1 = map csv_values df2.
Proof.
  intros H. apply (f_equal read_csv) in H. unfold to_csv in H.
  assert (Hne : forall df, Forall (fun r : list string => r <> [])
                             (csv_columns :: map csv_values df)).
  { intros df. constructor; [discriminate|].
    apply Forall_forall. intros r Hr. apply in_map_iff in Hr.
    destruct Hr as (x & <- & _). discriminate. }
  rewrite !read_csv_lines in H by apply Hne. now injection H.
Qed.

(** X13: the CSV export can be read back.  Two tables with the same export
    have listings of the same length that agree, entry by entry, on the id
    and on every text; only a missing optional text and an empty one cannot
    be told apart, both being written as the empty field. *)
Theorem export_to_csv_determines_listing (db1 db2 : database) :
  export_to_csv db1 = export_to_csv db2 ->
  Forall2
    (fun a b =>
       id a = id b /\ course_name a = course_name b
       /\ course_code a = course_code b /\ teacher a = teacher b
       /\ na_rep (lesson a) = na_rep (lesson b)
       /\ na_rep (notes a) = na_rep (notes b)
       /\ study_date a = study_date b /\ session a = session b
       /\ na_rep (color a) = na_rep (color b)
       /\ created_at a = created_at b)
    (get_all_schedules db1) (get_all_schedules db2).
Proof.
  unfold export_to_csv. intros H.
  apply utf8_encode_inj, to_csv_inj in H. revert H.
  generalize (get_all_schedules db2). generalize (get_all_schedules db1).
  induction l as [|a l IH]; intros [|b l'] H; try discriminate;
    constructor.
  - cbn in H. injection H as Hid Hcn Hcc Ht Hl Hn Hsd Hss Hc Hca _.
    apply str_of_int_inj in Hid. tauto.
  - apply IH. cbn in H. now injection H.
Qed.

(** Witness for X13: a table and the same table after an update that
    writes a row's own values again. *)
Lemma export_to_csv_determines_listing_witness :
  Forall2
    (fun a b =>
       id a = id b /\ course_name a = course_name b
       /\ course_code a = course_code b /\ teacher a = teacher b
       /\ na_rep (lesson a) = na_rep (lesson b)
       /\ na_rep (notes a) = na_rep (notes b)
       /\ study_date a = study_date b /\ session a = session b
       /\ na_rep (color a) = na_rep (color b)
       /\ created_at a = created_at b)
    (get_all_schedules three_inserts)
    (get_all_schedules (snd (update_schedule 1 (Some "Calculus I")
       (Some "MATH101") (Some "Dr. Smith") (Some "Chapter 3: Derivatives")
       (Some EmptyString) (Some "2024-03-10") (Some "Evening")
       (Some "#4CAF50") three_inserts))).
Proof.
  apply (export_to_csv_determines_listing three_inserts). reflexivity.
Defined.

(** ** Further compositions *)

(** X14: an update never adds or removes an entry: the listing after it
    has the same ids as before, each as often, and the counter of ids is
    untouched, whether the update returned or raised. *)
Theorem update_schedule_keeps_entries (sid : Z)
    (cn cc t l n sd ss c : option string) (db : database) :
  let db' := snd (update_schedule sid cn cc t l n sd ss c db) in
  Permutation (map id (get_all_schedules db)) (map id (get_all_schedules db'))
  /\ List.length (get_all_schedules db') = List.length (get_all_schedules db)
  /\ sqlite_sequence db' = sqlite_sequence db.
Proof.
  intros db'.
  assert (Hids : map id (schedules db') = map id (schedules db))
    by apply update_schedule_ids.
  split; [|split].
  - rewrite <- !get_all_schedules_perm. now rewrite Hids.
  - rewrite !get_all_schedules_length.
    rewrite <- (length_map id (schedules db')), Hids. apply length_map.
  - unfold db', update_schedule.
    destruct (negb (sqlite_integer sid)); [reflexivity|].
    destruct (existsb _ _); [|reflexivity].
    destruct cn, cc, t, sd, ss; reflexivity.
Qed.

Lemma filter_comm {A : Type} (p q : A -> bool) (l : list A) :
  filter p (filter q l) = filter q (filter p l).
Proof.
  induction l as [|x l IH]; cbn; [reflexivity|].
  destruct (p x) eqn:Hp, (q x) eqn:Hq; cbn; rewrite ?Hp, ?Hq, IH; reflexivity.
Qed.

Lemma filter_idem {A : Type} (p : A -> bool) (l : list A) :
  filter p (filter p l) = filter p l.
Proof.
  induction l as [|x l IH]; cbn; [reflexivity|].
  destruct (p x) eqn:Hp; cbn; rewrite ?Hp, IH; reflexivity.
Qed.

(** X15: deletes can be made in any order and repeated: deleting two ids
    leaves the same store whichever is deleted first, with the same
    results when both ids are 64-bit integers, and deleting an id a second
    time gives the result of the first time and changes nothing, whether
    or not the id was ever there. *)
Theorem delete_schedule_commutes (a b : Z) (db : database) :
  snd (delete_schedule a (snd (delete_schedule b db)))
  = snd (delete_schedule b (snd (delete_schedule a db)))
  /\ (MIN_ROWID <= a <= MAX_ROWID -> MIN_ROWID <= b <= MAX_ROWID ->
      delete_schedule a (snd (delete_schedule b db))
      = delete_schedule b (snd (delete_schedule a db)))
  /\ delete_schedule a (snd (delete_schedule a db)) = delete_schedule a db.
Proof.
  unfold delete_schedule. split; [|split].
  - destruct (negb (sqlite_integer a)), (negb (sqlite_integer b));
      cbn [snd schedules sqlite_sequence]; try reflexivity.
    now rewrite filter_comm.
  - intros Ha Hb.
    rewrite (sqlite_integer_in_range a Ha), (sqlite_integer_in_range b Hb).
    cbn [snd schedules sqlite_sequence]. now rewrite filter_comm.
  - destruct (negb (sqlite_integer a));
      cbn [snd schedules sqlite_sequence]; [reflexivity|].
    now rewrite filter_idem.
Qed.

(** Witness for X15: ids 1 and 2 of the three-row table. *)
Lemma delete_schedule_commutes_witness :
  delete_schedule 1 (snd (delete_schedule 2 three_inserts))
  = delete_schedule 2 (snd (delete_schedule 1 three_inserts)).
Proof.
  apply (proj1 (proj2 (delete_schedule_commutes 1 2 three_inserts)));
    unfold MIN_ROWID, MAX_ROWID; lia.
Defined.
